(** * pr-scan-buddy: the diff parser, rule engine and scorer of
      [src/backend/code_analyzer.py], embedded and verified.

    Text is modelled as [string]: a Python [str] whose code points are all
    below 128.  Whitespace, word characters and case folding are the ASCII
    restrictions of Python's Unicode tables; the statement on [str.strip()]
    says so with [isascii].  A dict is an association list in insertion
    order, as Python iterates it. *)

From Stdlib Require Import List String Ascii Bool Arith ZArith Lia.
From Stdlib Require Import QArith Qround Qminmax Lqa.
From Stdlib Require Import Sorted Permutation DecimalString.
Import ListNotations.

Local Open Scope string_scope.
Local Open Scope list_scope.
Local Open Scope bool_scope.

(* ================================================================= *)
(** ** Python string primitives *)

Module Py.

(** [s.startswith(p)] *)
Definition startswith (s p : string) : bool := String.prefix p s.

(** [s.endswith(suf)] *)
Fixpoint endswith (s suf : string) : bool :=
  if String.eqb s suf then true
  else match s with
       | EmptyString => false
       | String _ s' => endswith s' suf
       end.

(** [sub in s] *)
Fixpoint contains (s sub : string) : bool :=
  if String.prefix sub s then true
  else match s with
       | EmptyString => false
       | String _ s' => contains s' sub
       end.

(** [s[n:]] for [n >= 0] *)
Fixpoint drop (n : nat) (s : string) : string :=
  match n, s with
  | O, _ => s
  | S _, EmptyString => EmptyString
  | S n', String _ s' => drop n' s'
  end.

(** [s.split(sep)] for a one-character separator: never the empty list. *)
Fixpoint split (sep : ascii) (s : string) : list string :=
  match s with
  | EmptyString => [EmptyString]
  | String c s' =>
      if Ascii.eqb c sep then EmptyString :: split sep s'
      else match split sep s' with
           | [] => [String c EmptyString]
           | w :: ws => String c w :: ws
           end
  end.

(** [parts[-1]] of a list of strings; the default is never reached on
    the result of [split]. *)
Definition last_part (parts : list string) : string := last parts EmptyString.

(** [c.isspace()] on ASCII: tab, newline, vertical tab, form feed, carriage
    return, the four separators FS GS RS US, and the space. *)
Definition isspace (c : ascii) : bool :=
  let n := nat_of_ascii c in
  ((9 <=? n) && (n <=? 13) || (28 <=? n) && (n <=? 32))%nat%bool.

Fixpoint lstrip (s : string) : string :=
  match s with
  | EmptyString => EmptyString
  | String c s' => if isspace c then lstrip s' else s
  end.

Fixpoint rstrip (s : string) : string :=
  match s with
  | EmptyString => EmptyString
  | String c s' =>
      match rstrip s' with
      | EmptyString => if isspace c then EmptyString else String c EmptyString
      | r => String c r
      end
  end.

(** [s.strip()] *)
Definition strip (s : string) : string := rstrip (lstrip s).

Definition is_upper (c : ascii) : bool :=
  let n := nat_of_ascii c in ((65 <=? n) && (n <=? 90))%nat%bool.

Definition is_lower (c : ascii) : bool :=
  let n := nat_of_ascii c in ((97 <=? n) && (n <=? 122))%nat%bool.

Definition is_digit (c : ascii) : bool :=
  let n := nat_of_ascii c in ((48 <=? n) && (n <=? 57))%nat%bool.

Definition lower_char (c : ascii) : ascii :=
  if is_upper c then ascii_of_nat (nat_of_ascii c + 32) else c.

Definition upper_char (c : ascii) : ascii :=
  if is_lower c then ascii_of_nat (nat_of_ascii c - 32) else c.

Fixpoint map_chars (f : ascii -> ascii) (s : string) : string :=
  match s with
  | EmptyString => EmptyString
  | String c s' => String (f c) (map_chars f s')
  end.

(** [s.lower()] and [s.upper()] *)
Definition lower : string -> string := map_chars lower_char.
Definition upper : string -> string := map_chars upper_char.

(** The line feed, ['\n']. *)
Definition LF : ascii := ascii_of_nat 10.

End Py.

(* ================================================================= *)
(** ** Python dicts with string keys

    Insertion ordered; assigning to a key that is present replaces its value
    where it stands. *)

Module Dict.
Section WithValue.
Variable V : Type.

Definition t := list (string * V).

Definition empty : t := [].

(** [d[k] = v] *)
Fixpoint set (d : t) (k : string) (v : V) : t :=
  match d with
  | [] => [(k, v)]
  | (k', v') :: d' =>
      if String.eqb k' k then (k, v) :: d' else (k', v') :: set d' k v
  end.

(** [d.get(k)] *)
Fixpoint get (d : t) (k : string) : option V :=
  match d with
  | [] => None
  | (k', v') :: d' => if String.eqb k' k then Some v' else get d' k
  end.

Definition keys (d : t) : list string := map fst d.

(** [len(d)] *)
Definition size (d : t) : nat := List.length d.
End WithValue.

Arguments set {V} d k v.
Arguments get {V} d k.
Arguments keys {V} d.
Arguments size {V} d.
End Dict.

(* ================================================================= *)
(** ** [CodeAnalyzer._parse_diff] *)

(** The three locals of the loop: [files], [current_file] (None at first)
    and [current_changes]. *)
Record parse_state : Type := mk_parse_state {
  files : Dict.t (list string);
  current_file : option string;
  current_changes : list string
}.

(** [if current_file: files[current_file] = current_changes].  The test is
    false for [None] and for the empty string. *)
Definition flush (st : parse_state) : Dict.t (list string) :=
  match st.(current_file) with
  | Some (String c f) => Dict.set st.(files) (String c f) st.(current_changes)
  | Some EmptyString => st.(files)
  | None => st.(files)
  end.

Definition is_marker (line : string) : bool := Py.startswith line "diff --git".

Definition is_added (line : string) : bool :=
  Py.startswith line "+" && negb (Py.startswith line "+++").

(** [parts = line.split(' '); parts[-1][2:]] *)
Definition extract_path (line : string) : string :=
  Py.drop 2 (Py.last_part (Py.split " " line)).

(** One iteration of the [for line in ...] loop. *)
Definition parse_step (st : parse_state) (line : string) : parse_state :=
  if is_marker line then
    {| files := flush st;
       current_file := Some (extract_path line);
       current_changes := [] |}
  else if is_added line then
    {| files := st.(files);
       current_file := st.(current_file);
       current_changes := st.(current_changes) ++ [Py.drop 1 line] |}
  else st.

Definition parse_init : parse_state :=
  {| files := Dict.empty _; current_file := None; current_changes := [] |}.

Definition parse_lines (lines : list string) : Dict.t (list string) :=
  flush (fold_left parse_step lines parse_init).

Definition _parse_diff (diff_content : string) : Dict.t (list string) :=
  parse_lines (Py.split Py.LF diff_content).

(* ================================================================= *)
(** ** Exceptions

    A call returns a value or raises.  [OutOfModel] marks a run that leaves
    the fragment of Python's [re] syntax embedded below; nothing is claimed
    about such a run. *)

Inductive exn : Type :=
| re_error.   (* re.error, raised when a pattern does not compile *)

Inductive outcome (A : Type) : Type :=
| Ret (a : A)
| Raise (e : exn)
| OutOfModel.

Arguments Ret {A} a.
Arguments Raise {A} e.
Arguments OutOfModel {A}.

Definition bind {A B : Type} (m : outcome A) (k : A -> outcome B) : outcome B :=
  match m with
  | Ret a => k a
  | Raise e => Raise e
  | OutOfModel => OutOfModel
  end.

Notation "x <- m ;; k" := (bind m (fun x => k))
  (at level 61, m at next level, right associativity).

(* ================================================================= *)
(** ** The [re] module: the pattern syntax the rule tables use

    Literals, [.], [$], [|], the postfix [*] [+] [?], the classes [\s \S \w
    \W \d \D], escaped punctuation and bracket sets without ranges.  Groups,
    ranges, counted and lazy repeats, [^] and the remaining escapes are
    [Unsupported]. *)

Module Re.

Inductive category : Type :=
| Space | NotSpace | Word | NotWord | Digit | NotDigit.

Inductive set_item : Type :=
| SChar (c : ascii)
| SCat (k : category).

Inductive regex : Type :=
| Eps
| Lit (c : ascii)
| Dot
| Cat (k : category)
| CSet (negated : bool) (items : list set_item)
| Eol
| Star (r : regex)
| Plus (r : regex)
| Opt (r : regex)
| Seq (r1 r2 : regex)
| Alt (r1 r2 : regex).

Inductive parse_result : Type :=
| Parsed (r : regex)
| Malformed      (* Python raises re.error *)
| Unsupported.   (* valid or not, outside the embedded fragment *)

(** *** Parsing *)

Definition is_alnum (c : ascii) : bool :=
  Py.is_upper c || Py.is_lower c || Py.is_digit c.

(** The class a backslash escape denotes, if it is one. *)
Definition escape_category (e : ascii) : option category :=
  if Ascii.eqb e "s" then Some Space
  else if Ascii.eqb e "S" then Some NotSpace
  else if Ascii.eqb e "w" then Some Word
  else if Ascii.eqb e "W" then Some NotWord
  else if Ascii.eqb e "d" then Some Digit
  else if Ascii.eqb e "D" then Some NotDigit
  else None.

(** A branch is the sequence of its items; [items] is kept latest first. *)
Definition branch (items : list regex) : regex :=
  fold_left (fun acc it => match acc with Eps => it | _ => Seq it acc end)
            items Eps.

(** The alternatives are kept latest first as well. *)
Definition finish (alts : list regex) (items : list regex) : regex :=
  fold_left (fun acc b => Alt b acc) alts (branch items).

Definition is_repeat (r : regex) : bool :=
  match r with
  | Star _ | Plus _ | Opt _ => true
  | _ => false
  end.

Definition repeat_of (q : ascii) (r : regex) : regex :=
  if Ascii.eqb q "*" then Star r
  else if Ascii.eqb q "+" then Plus r
  else Opt r.

Definition is_quantifier (c : ascii) : bool :=
  Ascii.eqb c "*" || Ascii.eqb c "+" || Ascii.eqb c "?".

Definition is_reserved (c : ascii) : bool :=
  Ascii.eqb c "(" || Ascii.eqb c ")" || Ascii.eqb c "{" || Ascii.eqb c "}"
  || Ascii.eqb c "^".

(** [cls] is [Some (negated, items)] while inside a bracket set. *)
Fixpoint parse_from (p : string) (alts items : list regex)
         (cls : option (bool * list set_item)) : parse_result :=
  match cls with
  | None =>
      match p with
      | EmptyString => Parsed (finish alts items)
      | String c p' =>
          if Ascii.eqb c "|" then parse_from p' (branch items :: alts) [] None
          else if is_quantifier c then
            match items with
            | [] => Malformed                      (* nothing to repeat *)
            | Eol :: _ => Malformed                (* nothing to repeat *)
            | it :: rest =>
                if is_repeat it then
                  if Ascii.eqb c "*" then Malformed    (* multiple repeat *)
                  else Unsupported                     (* lazy, possessive *)
                else parse_from p' alts (repeat_of c it :: rest) None
            end
          else if Ascii.eqb c "." then parse_from p' alts (Dot :: items) None
          else if Ascii.eqb c "$" then parse_from p' alts (Eol :: items) None
          else if Ascii.eqb c "[" then
            match p' with
            | String "^" p'' => parse_from p'' alts items (Some (true, []))
            | _ => parse_from p' alts items (Some (false, []))
            end
          else if Ascii.eqb c "\" then
            match p' with
            | EmptyString => Malformed             (* bad escape *)
            | String e p'' =>
                match escape_category e with
                | Some k => parse_from p'' alts (Cat k :: items) None
                | None =>
                    if is_alnum e then Unsupported
                    else parse_from p'' alts (Lit e :: items) None
                end
            end
          else if is_reserved c then Unsupported
          else parse_from p' alts (Lit c :: items) None
      end
  | Some (neg, its) =>
      match p with
      | EmptyString => Malformed                   (* unterminated set *)
      | String c p' =>
          if Ascii.eqb c "]" then
            match its with
            | [] => parse_from p' alts items (Some (neg, [SChar c]))
            | _ => parse_from p' alts (CSet neg (rev its) :: items) None
            end
          else if Ascii.eqb c "\" then
            match p' with
            | EmptyString => Malformed
            | String e p'' =>
                match escape_category e with
                | Some k => parse_from p'' alts items (Some (neg, SCat k :: its))
                | None =>
                    if is_alnum e then Unsupported
                    else parse_from p'' alts items (Some (neg, SChar e :: its))
                end
            end
          else if Ascii.eqb c "-" || Ascii.eqb c "[" then Unsupported
          else parse_from p' alts items (Some (neg, SChar c :: its))
      end
  end.

(** [re.compile(pattern)] *)
Definition compile (pattern : string) : parse_result :=
  parse_from pattern [] [] None.

(** *** Matching *)

Definition is_word (c : ascii) : bool := is_alnum c || Ascii.eqb c "_".

Definition cat_match (k : category) (c : ascii) : bool :=
  match k with
  | Space => Py.isspace c
  | NotSpace => negb (Py.isspace c)
  | Word => is_word c
  | NotWord => negb (is_word c)
  | Digit => Py.is_digit c
  | NotDigit => negb (Py.is_digit c)
  end.

(** A literal against a subject character; under IGNORECASE both are
    lowered first. *)
Definition lit_match (ic : bool) (c x : ascii) : bool :=
  if ic then Ascii.eqb (Py.lower_char c) (Py.lower_char x)
  else Ascii.eqb c x.

Definition item_match (ic : bool) (it : set_item) (x : ascii) : bool :=
  match it with
  | SChar c => lit_match ic c x
  | SCat k => cat_match k x
  end.

Definition set_match (ic : bool) (neg : bool) (its : list set_item)
           (x : ascii) : bool :=
  xorb neg (existsb (fun it => item_match ic it x) its).

(** [$] without MULTILINE: at the end, or before a final line feed. *)
Definition at_eol (s : string) : bool :=
  match s with
  | EmptyString => true
  | String c EmptyString => Ascii.eqb c Py.LF
  | _ => false
  end.

Definition one (ok : ascii -> bool) (s : string) : list string :=
  match s with
  | EmptyString => []
  | String x s' => if ok x then [s'] else []
  end.

Definition shorter (s t : string) : bool :=
  (String.length t <? String.length s)%nat.

(** Zero or more rounds of [step], each consuming at least one character;
    the longer matches come first, as the greedy repeat tries them. *)
Fixpoint star_ends (step : string -> list string) (fuel : nat) (s : string)
  : list string :=
  match fuel with
  | O => [s]
  | S n => flat_map (star_ends step n) (filter (shorter s) (step s)) ++ [s]
  end.

(** [ends ic r s]: what is left of [s] after each way [r] matches a prefix
    of it, in the order the backtracking matcher tries them. *)
Fixpoint ends (ic : bool) (r : regex) (s : string) : list string :=
  match r with
  | Eps => [s]
  | Lit c => one (lit_match ic c) s
  | Dot => one (fun x => negb (Ascii.eqb x Py.LF)) s
  | Cat k => one (cat_match k) s
  | CSet neg its => one (set_match ic neg its) s
  | Eol => if at_eol s then [s] else []
  | Star r' => star_ends (ends ic r') (String.length s) s
  | Plus r' =>
      flat_map (fun t => star_ends (ends ic r') (String.length t) t)
               (ends ic r' s)
  | Opt r' => ends ic r' s ++ [s]
  | Seq r1 r2 => flat_map (ends ic r2) (ends ic r1 s)
  | Alt r1 r2 => ends ic r1 s ++ ends ic r2 s
  end.

Definition matches_here (ic : bool) (r : regex) (s : string) : bool :=
  match ends ic r s with
  | [] => false
  | _ :: _ => true
  end.

(** A match starting at some position of [s], the end included. *)
Fixpoint matches_somewhere (ic : bool) (r : regex) (s : string) : bool :=
  matches_here ic r s ||
  match s with
  | EmptyString => false
  | String _ s' => matches_somewhere ic r s'
  end.

Definition with_compiled (pattern : string) (k : regex -> bool) : outcome bool :=
  match compile pattern with
  | Parsed r => Ret (k r)
  | Malformed => Raise re_error
  | Unsupported => OutOfModel
  end.

(** Truth value of [re.search(pattern, s, flags)]; [ignorecase] tells
    whether [flags] is [re.IGNORECASE]. *)
Definition search (pattern s : string) (ignorecase : bool) : outcome bool :=
  with_compiled pattern (fun r => matches_somewhere ignorecase r s).

(** Truth value of [re.match(pattern, s)]. *)
Definition match_ (pattern s : string) : outcome bool :=
  with_compiled pattern (fun r => matches_here false r s).

End Re.

(* ================================================================= *)
(** ** [models.py] *)

Inductive FeedbackType : Type := ERROR | WARNING | SUGGESTION | INFO.

Record CodeFeedback : Type := mk_feedback {
  file : string;
  line : Z;
  type : FeedbackType;
  message : string;
  severity : Z;               (* 1-5 scale *)
  suggestion : option string
}.

Record PRData : Type := mk_pr_data {
  files_changed : list string;
  additions : Z;
  deletions : Z;
  commits : Z;
  diff_content : string;
  branch_name : string;
  base_branch : string
}.

(** [PRAnalysisResponse] without its [summary], a formatted sentence over
    the other fields. *)
Record PRAnalysisResponse : Type := mk_response {
  score : Z;
  feedback : list CodeFeedback;
  resp_files_changed : Z;
  lines_added : Z;
  lines_removed : Z;
  recommendations : list string
}.

Definition FeedbackType_eqb (a b : FeedbackType) : bool :=
  match a, b with
  | ERROR, ERROR | WARNING, WARNING | SUGGESTION, SUGGESTION | INFO, INFO => true
  | _, _ => false
  end.

(* ================================================================= *)
(** ** [CodeAnalyzer] *)

(** The double quote, which the two credential patterns contain. *)
Definition DQ : string := String (ascii_of_nat 34) EmptyString.

(** The instance attributes: two tables of (pattern, message). *)
Record CodeAnalyzer : Type := mk_analyzer {
  security_patterns : list (string * string);
  quality_patterns : list (string * string)
}.

Definition __init__ : CodeAnalyzer :=
  {| security_patterns :=
       [ ("eval\s*\(", "Avoid using eval() as it can execute arbitrary code");
         ("exec\s*\(", "Avoid using exec() as it can execute arbitrary code");
         ("subprocess\.call\s*\(.*shell\s*=\s*True",
          "Avoid shell=True in subprocess calls");
         ("sql.*\+.*", "Potential SQL injection - use parameterized queries");
         (("password\s*=\s*[" ++ DQ ++ "\'][^" ++ DQ ++ "\']*[" ++ DQ ++ "\']")%string,
          "Hardcoded password detected");
         (("api_key\s*=\s*[" ++ DQ ++ "\'][^" ++ DQ ++ "\']*[" ++ DQ ++ "\']")%string,
          "Hardcoded API key detected") ];
     quality_patterns :=
       [ ("def\s+\w+\([^)]*\):\s*$", "Function missing docstring");
         ("class\s+\w+.*:\s*$", "Class missing docstring");
         ("print\s*\(", "Consider using logging instead of print statements");
         ("TODO|FIXME|HACK", "TODO/FIXME comment found - consider addressing") ]
  |}.

(** The loop shared by [_check_security_patterns] and
    [_check_quality_patterns]: [issues] grows by the message of every rule
    whose pattern is found, under [re.IGNORECASE]. *)
Fixpoint check_patterns (table : list (string * string)) (line_content : string)
         (issues : list string) : outcome (list string) :=
  match table with
  | [] => Ret issues
  | (pattern, msg) :: rest =>
      hit <- Re.search pattern line_content true ;;
      check_patterns rest line_content (if hit then issues ++ [msg] else issues)
  end.

Definition _check_security_patterns (self : CodeAnalyzer) (line_content : string)
  : outcome (list string) :=
  check_patterns self.(security_patterns) line_content [].

Definition _check_quality_patterns (self : CodeAnalyzer) (line_content : string)
  : outcome (list string) :=
  check_patterns self.(quality_patterns) line_content [].

(** The dicts [_analyze_python_line] returns. *)
Record issue : Type := mk_issue {
  issue_type : FeedbackType;
  issue_message : string;
  issue_severity : Z
}.

Definition type_hint_issue : issue :=
  mk_issue SUGGESTION "Consider adding type hints for better code clarity" 2.

Definition long_line_issue : issue :=
  mk_issue WARNING "Line exceeds recommended length (88 characters)" 2.

Definition import_issue : issue :=
  mk_issue INFO "Verify that this import is actually used" 1.

Definition _analyze_python_line (line_content : string) : outcome (list issue) :=
  let issues := [] in
  is_def <- Re.match_ "def\s+\w+\([^)]*\):" line_content ;;
  let issues :=
    if is_def && negb (Py.contains line_content "->")
    then issues ++ [type_hint_issue] else issues in
  let issues :=
    if (88 <? String.length (Py.strip line_content))%nat
    then issues ++ [long_line_issue] else issues in
  let issues :=
    if Py.startswith (Py.strip line_content) "import "
       && negb (Py.contains line_content "#")
    then issues ++ [import_issue] else issues in
  Ret issues.

Definition _is_code_file (file_path : string) : bool :=
  let code_extensions :=
    [".py"; ".js"; ".ts"; ".jsx"; ".tsx"; ".java"; ".cpp"; ".c"; ".cs";
     ".php"; ".rb"; ".go"] in
  existsb (fun ext => Py.endswith file_path ext) code_extensions.

(** The body of the loop of [_analyze_file_changes] for one added line:
    what it appends to [feedback]. *)
Definition analyze_line (self : CodeAnalyzer) (file_path : string)
           (line_num : Z) (line_content : string) : outcome (list CodeFeedback) :=
  security_issues <- _check_security_patterns self line_content ;;
  let fb :=
    map (fun m => mk_feedback file_path line_num ERROR m 5 None)
        security_issues in
  quality_issues <- _check_quality_patterns self line_content ;;
  let fb := fb ++
    map (fun m => mk_feedback file_path line_num WARNING m 3 None)
        quality_issues in
  if Py.endswith file_path ".py" then
    python_issues <- _analyze_python_line line_content ;;
    Ret (fb ++
         map (fun i => mk_feedback file_path line_num i.(issue_type)
                                   i.(issue_message) i.(issue_severity) None)
             python_issues)
  else Ret fb.

(** [for line_num, line_content in enumerate(changes, 1)] *)
Fixpoint analyze_lines (self : CodeAnalyzer) (file_path : string)
         (changes : list string) (line_num : Z) (fb : list CodeFeedback)
  : outcome (list CodeFeedback) :=
  match changes with
  | [] => Ret fb
  | line_content :: rest =>
      more <- analyze_line self file_path line_num line_content ;;
      analyze_lines self file_path rest (line_num + 1) (fb ++ more)
  end.

Definition _analyze_file_changes (self : CodeAnalyzer) (file_path : string)
           (changes : list string) : outcome (list CodeFeedback) :=
  analyze_lines self file_path changes 1 [].

(** *** Scoring

    [total_penalty] is an int until an INFO finding adds [severity * 0.5],
    and a float from then on.  It is modelled as an exact rational.  That is
    what the code computes when no severity is negative and none is beyond
    the range of a float: a partial sum below 100 is an integer or a half,
    which a float holds exactly, and a sum that has reached 100 stays at or
    above it whatever the rounding.  With negative or very large severities
    the float is rounded, or the conversion overflows, and the rational is
    no longer what the code holds; the statements on the score of arbitrary
    findings are therefore made for severities on the scale of [models.py]. *)

Definition penalty (item : CodeFeedback) : Q :=
  match item.(type) with
  | ERROR => inject_Z (item.(severity) * 3)
  | WARNING => inject_Z (item.(severity) * 2)
  | SUGGESTION => inject_Z (item.(severity) * 1)
  | INFO => inject_Z item.(severity) * (1 # 2)
  end.

Definition py_min (a b : Q) : Q := if Qlt_le_dec b a then b else a.
Definition py_max (a b : Q) : Q := if Qlt_le_dec a b then b else a.

(** [int(x)]: truncation towards zero. *)
Definition py_int (x : Q) : Z := Z.quot (Qnum x) (Zpos (Qden x)).

Definition _calculate_score (fb : list CodeFeedback) : Z :=
  match fb with
  | [] => 100%Z
  | _ :: _ =>
      let total_penalty := fold_left (fun acc item => acc + penalty item) fb 0 in
      let score := py_max 0 (100 - py_min 100 total_penalty) in
      py_int score
  end.

(** *** Recommendations and the pipeline *)

Definition count_if {A : Type} (p : A -> bool) (l : list A) : nat :=
  List.length (filter p l).

Definition _generate_recommendations (fb : list CodeFeedback) : list string :=
  let recs := [] in
  let error_count := count_if (fun f => FeedbackType_eqb f.(type) ERROR) fb in
  let recs :=
    if (0 <? error_count)%nat
    then recs ++ ["Address all critical security and error issues before merging"]
    else recs in
  let security_issues :=
    count_if (fun f => Py.contains (Py.lower f.(message)) "security"
                       || Py.contains (Py.lower f.(message)) "injection") fb in
  let recs :=
    if (0 <? security_issues)%nat
    then recs ++ ["Review and fix security vulnerabilities"] else recs in
  let doc_issues :=
    count_if (fun f => Py.contains (Py.lower f.(message)) "docstring") fb in
  let recs :=
    if (0 <? doc_issues)%nat
    then recs ++ ["Add documentation to improve code maintainability"]
    else recs in
  match recs with
  | [] => ["Great work! Code looks good to merge."]
  | _ => recs
  end.

(** [for file_path, changes in diff_sections.items()] *)
Fixpoint analyze_sections (self : CodeAnalyzer)
         (sections : list (string * list string)) (fb : list CodeFeedback)
  : outcome (list CodeFeedback) :=
  match sections with
  | [] => Ret fb
  | (file_path, changes) :: rest =>
      if _is_code_file file_path then
        file_feedback <- _analyze_file_changes self file_path changes ;;
        analyze_sections self rest (fb ++ file_feedback)
      else analyze_sections self rest fb
  end.

Definition analyze_changes (self : CodeAnalyzer) (pr_data : PRData)
  : outcome PRAnalysisResponse :=
  let diff_sections := _parse_diff pr_data.(diff_content) in
  fb <- analyze_sections self diff_sections [] ;;
  let score := _calculate_score fb in
  Ret {| score := score;
         feedback := fb;
         resp_files_changed := Z.of_nat (List.length pr_data.(files_changed));
         lines_added := pr_data.(additions);
         lines_removed := pr_data.(deletions);
         recommendations := _generate_recommendations fb |}.

(* ================================================================= *)
(** ** Vocabulary of the statements *)

(** *** Diff parsing *)

(** The loop of [_parse_diff] from an arbitrary state. *)
Definition run (st : parse_state) (lines : list string) : parse_state :=
  fold_left parse_step lines st.

(** The paths of the [diff --git] lines, in order of appearance. *)
Definition marker_paths (lines : list string) : list string :=
  map extract_path (filter is_marker lines).

(** The added lines of a stretch of diff text, each without its [+]. *)
Definition added_lines (body : list string) : list string :=
  map (Py.drop 1) (filter is_added body).

Definition no_marker (body : list string) : bool :=
  forallb (fun l => negb (is_marker l)) body.

(** What follows a section: nothing, or the marker of the next one. *)
Definition section_ends (rest : list string) : bool :=
  match rest with
  | [] => true
  | l :: _ => is_marker l
  end.

(** No section for [p] among [rest]. *)
Definition no_section_for (p : string) (rest : list string) : bool :=
  forallb (fun l => negb (is_marker l && String.eqb (extract_path l) p)) rest.

Definition nonempty (s : string) : bool :=
  match s with
  | EmptyString => false
  | String _ _ => true
  end.

(** [lines] holds a section opened by marker [m] with content [body]. *)
Definition is_section (lines before : list string) (m : string)
           (body rest : list string) : Prop :=
  lines = before ++ m :: body ++ rest /\
  is_marker m = true /\
  nonempty (extract_path m) = true /\
  no_marker body = true /\
  section_ends rest = true.

(** What the loop maintains once the markers of [seen] went by. *)
Definition parse_inv (st : parse_state) (seen : list string) : Prop :=
  NoDup (Dict.keys (files st)) /\
  (forall p, In p (Dict.keys (files st)) -> nonempty p = true /\ In p seen) /\
  (forall p, current_file st = Some p -> In p seen) /\
  (forall p, nonempty p = true -> In p seen ->
             In p (Dict.keys (files st)) \/ current_file st = Some p).

(** ["\n".join(lines)] *)
Definition join_lines (lines : list string) : string :=
  String.concat (String Py.LF EmptyString) lines.

(** Two sections for one file. *)
Definition twice_x_diff : string :=
  join_lines ["diff --git a/x b/x"; "+old"; "diff --git a/x b/x"; "+new"].

(** A marker as [git diff --no-prefix] prints it. *)
Definition no_prefix_diff : string :=
  join_lines ["diff --git src/app.py src/app.py"; "+x = 1"].


(** Two sections whose marker ends in a token of one character: the path
    extracted is empty. *)
Definition empty_path_diff : string :=
  join_lines ["diff --git a b"; "+old"; "diff --git a b"; "+new"].

(** *** Rule evaluation *)

(** Two texts that differ in letter case only. *)
Definition same_fold (s t : string) : Prop := Py.lower s = Py.lower t.

(** A character test that does not see letter case. *)
Definition fold_stable (ok : ascii -> bool) : Prop :=
  forall x y, Py.lower_char x = Py.lower_char y -> ok x = ok y.

Definition compiles (pattern : string) : bool :=
  match Re.compile pattern with
  | Re.Parsed _ => true
  | _ => false
  end.

Definition malformed (pattern : string) : bool :=
  match Re.compile pattern with
  | Re.Malformed => true
  | _ => false
  end.


Definition table_compiles (table : list (string * string)) : bool :=
  forallb (fun rule => compiles (fst rule)) table.

Definition analyzer_compiles (self : CodeAnalyzer) : bool :=
  table_compiles self.(security_patterns) && table_compiles self.(quality_patterns).

(** The pattern is found in the line; false when the search does not
    return. *)
Definition found (pattern line_content : string) : bool :=
  match Re.search pattern line_content true with
  | Ret b => b
  | _ => false
  end.

Definition found_at_start (pattern line_content : string) : bool :=
  match Re.match_ pattern line_content with
  | Ret b => b
  | _ => false
  end.

(** The messages of the rules found in the line, in the order the table
    declares them.  A rule whose evaluation raises contributes nothing:
    this is the fail-soft reading of a rule table. *)
Definition matched_messages (table : list (string * string))
           (line_content : string) : list string :=
  map snd (filter (fun rule => found (fst rule) line_content) table).

(** The three extension-specific rules, in the order of the source. *)
Definition python_issues (line_content : string) : list issue :=
  (if found_at_start "def\s+\w+\([^)]*\):" line_content
      && negb (Py.contains line_content "->")
   then [type_hint_issue] else []) ++
  (if (88 <? String.length (Py.strip line_content))%nat
   then [long_line_issue] else []) ++
  (if Py.startswith (Py.strip line_content) "import "
      && negb (Py.contains line_content "#")
   then [import_issue] else []).

Definition security_finding (file_path : string) (line_num : Z) (m : string)
  : CodeFeedback := mk_feedback file_path line_num ERROR m 5 None.

Definition quality_finding (file_path : string) (line_num : Z) (m : string)
  : CodeFeedback := mk_feedback file_path line_num WARNING m 3 None.

Definition python_finding (file_path : string) (line_num : Z) (i : issue)
  : CodeFeedback :=
  mk_feedback file_path line_num i.(issue_type) i.(issue_message)
              i.(issue_severity) None.

(** The findings of one added line, group after group. *)
Definition line_findings (self : CodeAnalyzer) (file_path : string)
           (line_num : Z) (line_content : string) : list CodeFeedback :=
  map (security_finding file_path line_num)
      (matched_messages self.(security_patterns) line_content) ++
  map (quality_finding file_path line_num)
      (matched_messages self.(quality_patterns) line_content) ++
  (if Py.endswith file_path ".py"
   then map (python_finding file_path line_num) (python_issues line_content)
   else []).

(** [enumerate(changes, start)] *)
Fixpoint enumerate (start : Z) (changes : list string) : list (Z * string) :=
  match changes with
  | [] => []
  | l :: rest => (start, l) :: enumerate (start + 1) rest
  end.

Definition on_line (n : Z) (f : CodeFeedback) : bool := Z.eqb f.(line) n.

Definition is_info (f : CodeFeedback) : bool := FeedbackType_eqb f.(type) INFO.

(** An analyzer whose first security rule has an unterminated bracket set. *)
Definition broken_analyzer : CodeAnalyzer :=
  {| security_patterns :=
       [ ("[", "Broken rule");
         ("eval\s*\(", "Avoid using eval() as it can execute arbitrary code") ];
     quality_patterns := [] |}.

(** Scenario B: one added line [def foo(x):] in [mod.py]. *)
Definition foo_diff : string :=
  join_lines ["diff --git a/mod.py b/mod.py"; "--- a/mod.py"; "+++ b/mod.py";
              "@@ -0,0 +1 @@"; "+def foo(x):"].

Definition docstring_warning (file_path : string) : CodeFeedback :=
  mk_feedback file_path 1 WARNING "Function missing docstring" 3 None.

Definition type_hint_suggestion (file_path : string) : CodeFeedback :=
  mk_feedback file_path 1 SUGGESTION
              "Consider adding type hints for better code clarity" 2 None.

(** The finding the import rule emits. *)
Definition import_finding (file_path : string) (line_num : Z) : CodeFeedback :=
  mk_feedback file_path line_num INFO
              "Verify that this import is actually used" 1 None.

(** The condition of the import rule of the source. *)
Definition import_rule_fires (file_path line_content : string) : bool :=
  Py.endswith file_path ".py"
  && Py.startswith (Py.strip line_content) "import "
  && negb (Py.contains line_content "#").

(** *** The import rule, stated without [Py.strip] *)

(** [s.isascii()] *)
Definition isascii (s : string) : bool :=
  forallb (fun c => (nat_of_ascii c <? 128)%nat) (list_ascii_of_string s).

(** The ASCII characters that [str.strip()] removes: tab, line feed,
    vertical tab, form feed, carriage return, the separators FS GS RS US and
    the space. *)
Definition whitespace : list ascii :=
  map ascii_of_nat [9; 10; 11; 12; 13; 28; 29; 30; 31; 32]%nat.

Definition is_whitespace (c : ascii) : bool := existsb (Ascii.eqb c) whitespace.

Definition blank (s : string) : bool :=
  forallb is_whitespace (list_ascii_of_string s).

Definition first_char (s : string) : option ascii :=
  match s with
  | EmptyString => None
  | String c _ => Some c
  end.

Fixpoint last_char (s : string) : option ascii :=
  match s with
  | EmptyString => None
  | String c s' =>
      match last_char s' with
      | None => Some c
      | found => found
      end
  end.

(** Neither the first nor the last character is whitespace. *)
Definition clean_edges (t : string) : bool :=
  match first_char t, last_char t with
  | Some a, Some b => negb (is_whitespace a) && negb (is_whitespace b)
  | _, _ => true
  end.

(** [t] is the stripped text of [line]: [line] without the whitespace it
    begins and ends with. *)
Definition stripped_text (line t : string) : Prop :=
  exists before after,
    line = (before ++ t ++ after)%string /\
    blank before = true /\ blank after = true /\ clean_edges t = true.

(** When the import rule is to fire: a [.py] file, a stripped text that
    starts with [import ], and no [#] anywhere in the line. *)
Definition import_line (file_path line_content : string) : Prop :=
  (exists stem, file_path = (stem ++ ".py")%string) /\
  (exists t rest, stripped_text line_content t /\ t = ("import " ++ rest)%string) /\
  ~ In "#"%char (list_ascii_of_string line_content).

(** *** The score as a function of the accumulated sum *)

(** The sum the loop accumulates. *)
Definition sum_penalties (fb : list CodeFeedback) : Q :=
  fold_right (fun item acc => penalty item + acc) 0 fb.

(** 100 minus the sum capped at 100, floored, and at least 0. *)
Definition spec_score (fb : list CodeFeedback) : Z :=
  Z.max 0 (Qfloor (100 - Qmin (sum_penalties fb) 100)).

(** The scale [models.py] gives for a severity. *)
Definition severity_in_scale (item : CodeFeedback) : Prop :=
  (1 <= item.(severity) <= 5)%Z.

(** *** Scoring, in the words of the specification *)

(** The weight the specification gives each kind of finding. *)
Definition claimed_weight (t : FeedbackType) : Q :=
  match t with
  | ERROR => 3
  | WARNING => 2
  | SUGGESTION => 1
  | INFO => 1 # 2
  end.

(** The penalty of one finding: its severity times the weight of its kind. *)
Definition claimed_penalty (item : CodeFeedback) : Q :=
  inject_Z item.(severity) * claimed_weight item.(type).

(** The penalties summed across all findings. *)
Definition claimed_total (fb : list CodeFeedback) : Q :=
  fold_right Qplus 0 (map claimed_penalty fb).

(** 100 minus the sum clamped to at most 100, floored to an integer and
    clamped to at least 0. *)
Definition claimed_score (fb : list CodeFeedback) : Z :=
  Z.max 0 (Qfloor (100 - Qmin (claimed_total fb) 100)).

(** One error whose severity is below the scale. *)
Definition error_below_scale : CodeFeedback :=
  mk_feedback "a.py" 1 ERROR "e" (-1) None.

(** One finding of each kind, severities on the scale. *)
Definition one_of_each : list CodeFeedback :=
  [ mk_feedback "a.py" 1 ERROR "e" 5 None;
    mk_feedback "a.py" 2 WARNING "w" 3 None;
    mk_feedback "a.py" 3 SUGGESTION "s" 2 None;
    mk_feedback "a.py" 4 INFO "i" 1 None ].

(** Seven errors of severity 5. *)
Definition seven_errors : list CodeFeedback :=
  repeat (mk_feedback "a.py" 1 ERROR "Hardcoded password detected" 5 None) 7.

(** *** Vocabulary of the further properties *)

Definition keeps_line (l : string) : bool := is_marker l || is_added l.

Definition plus_lines_of (lines stored : list string) : Prop :=
  forall l, In l stored ->
            In (String "+" l) lines /\ Py.startswith l "++" = false.

Definition stored_inv (lines : list string) (st : parse_state) : Prop :=
  (forall k v, In (k, v) (files st) -> plus_lines_of lines v) /\
  plus_lines_of lines (current_changes st).

Definition file_findings (self : CodeAnalyzer) (file_path : string)
           (changes : list string) : list CodeFeedback :=
  flat_map (fun nl => line_findings self file_path (fst nl) (snd nl))
           (enumerate 1 changes).

Definition diff_findings (self : CodeAnalyzer)
           (sections : list (string * list string)) : list CodeFeedback :=
  flat_map (fun fc => if _is_code_file (fst fc)
                      then file_findings self (fst fc) (snd fc) else [])
           sections.

Definition finding_shape (f : CodeFeedback) : Prop :=
  suggestion f = None /\
  match type f with
  | ERROR => severity f = 5%Z
  | WARNING => severity f = 3%Z \/ severity f = 2%Z
  | SUGGESTION => severity f = 2%Z
  | INFO => severity f = 1%Z
  end.

Definition is_error (f : CodeFeedback) : bool := FeedbackType_eqb f.(type) ERROR.

Definition mentions_security (f : CodeFeedback) : bool :=
  Py.contains (Py.lower f.(message)) "security"
  || Py.contains (Py.lower f.(message)) "injection".

Definition mentions_docstring (f : CodeFeedback) : bool :=
  Py.contains (Py.lower f.(message)) "docstring".

(** The messages the built-in rules can emit. *)
Definition known_messages : list string :=
  map snd (security_patterns __init__) ++ map snd (quality_patterns __init__)
  ++ map issue_message [type_hint_issue; long_line_issue; import_issue].

(** *** More string methods, for [git_integration.py] *)

Module PyStr.

(** [s.lstrip(c)], [s.rstrip(c)] and [s.strip(c)] for a one-character [c]. *)
Fixpoint lstrip_char (c : ascii) (s : string) : string :=
  match s with
  | EmptyString => EmptyString
  | String x s' => if Ascii.eqb x c then lstrip_char c s' else s
  end.

Fixpoint rstrip_char (c : ascii) (s : string) : string :=
  match s with
  | EmptyString => EmptyString
  | String x s' =>
      match rstrip_char c s' with
      | EmptyString => if Ascii.eqb x c then EmptyString else String x EmptyString
      | r => String x r
      end
  end.

Definition strip_char (c : ascii) (s : string) : string :=
  rstrip_char c (lstrip_char c s).

(** [s.replace(old, new)] for a non-empty [old]: the occurrences are taken
    from the left and do not overlap.  [skip] counts the characters of an
    occurrence still to pass over. *)
Fixpoint replace_from (old new : string) (skip : nat) (s : string) : string :=
  match s with
  | EmptyString => EmptyString
  | String x s' =>
      match skip with
      | S k => replace_from old new k s'
      | O =>
          if String.prefix old s
          then (new ++ replace_from old new (String.length old - 1) s')%string
          else String x (replace_from old new 0 s')
      end
  end.

Definition replace (old new s : string) : string := replace_from old new 0 s.

(** [str(n)] for an int. *)
Definition str_int (n : Z) : string :=
  DecimalString.NilZero.string_of_int (Z.to_int n).

(** [c in s] for a character. *)
Fixpoint has_char (c : ascii) (s : string) : bool :=
  match s with
  | EmptyString => false
  | String x s' => Ascii.eqb x c || has_char c s'
  end.

End PyStr.

(** ** [git_integration.py] and [main.py] *)

(** The exceptions these two files raise, with their text. *)
Inductive py_exn : Type :=
| ValueError (msg : string)
| NotImplementedError (msg : string)
| IndexError (msg : string)
| Exception_ (msg : string).

(** [str(e)] *)
Definition exn_text (e : py_exn) : string :=
  match e with
  | ValueError m | NotImplementedError m | IndexError m | Exception_ m => m
  end.

Inductive fetched (A : Type) : Type :=
| Fetched (a : A)
| Failed (e : py_exn).

Arguments Fetched {A} a.
Arguments Failed {A} e.

(** The two attributes of [urlparse(url)] the code reads. *)
Record ParseResult : Type := mk_parsed {
  netloc : string;
  path : string
}.

(** The answers of the service boundary: the report, or
    [HTTPException(status_code=400, detail=...)]. *)
Inductive http_answer : Type :=
| Http200 (body : PRAnalysisResponse)
| Http400 (detail : string).

Section GitService.

(** [urllib.parse.urlparse]. *)
Variable urlparse : string -> ParseResult.

(** What [_fetch_github_pr] does once it has the API address: the two
    requests and the clone, which depend on it and on the repository
    address. *)
Variable github_requests : string -> string -> fetched PRData.

(** The text of a [re.error]. *)
Variable re_error_text : string.

(** The first statements of [_fetch_github_pr]: owner and repository from
    the path, then the address of the pull request. *)
Definition github_api_url (repository_url : string) (pr_number : Z)
  : fetched string :=
  let parsed := urlparse repository_url in
  let path_parts := Py.split "/" (PyStr.strip_char "/" parsed.(path)) in
  match nth_error path_parts 0, nth_error path_parts 1 with
  | Some owner, Some second =>
      let repo := PyStr.replace ".git" EmptyString second in
      Fetched ("https://api.github.com/repos/" ++ owner ++ "/" ++ repo
               ++ "/pulls/" ++ PyStr.str_int pr_number)%string
  | _, _ => Failed (IndexError "list index out of range")
  end.

Definition _fetch_github_pr (repository_url : string) (pr_number : Z)
  : fetched PRData :=
  match github_api_url repository_url pr_number with
  | Fetched api_url => github_requests api_url repository_url
  | Failed e => Failed e
  end.

Definition _fetch_gitlab_pr (repository_url : string) (pr_number : Z)
  : fetched PRData :=
  Failed (NotImplementedError "GitLab integration coming soon").

Definition _fetch_bitbucket_pr (repository_url : string) (pr_number : Z)
  : fetched PRData :=
  Failed (NotImplementedError "Bitbucket integration coming soon").

Definition fetch_pr_data (repository_url : string) (pr_number : Z)
  : fetched PRData :=
  let parsed_url := urlparse repository_url in
  if Py.contains parsed_url.(netloc) "github.com"
  then _fetch_github_pr repository_url pr_number
  else if Py.contains parsed_url.(netloc) "gitlab.com"
  then _fetch_gitlab_pr repository_url pr_number
  else if Py.contains parsed_url.(netloc) "bitbucket.org"
  then _fetch_bitbucket_pr repository_url pr_number
  else Failed (ValueError "Unsupported Git platform").

(** [main.analyze_pull_request]: fetch, analyse with the module's
    [CodeAnalyzer()], and turn any exception into a 400. *)
Definition analyze_pull_request (repository_url : string) (pr_number : Z)
  : outcome http_answer :=
  match fetch_pr_data repository_url pr_number with
  | Failed e => Ret (Http400 (exn_text e))
  | Fetched pr_data =>
      match analyze_changes __init__ pr_data with
      | Ret analysis_result => Ret (Http200 analysis_result)
      | Raise re_error => Ret (Http400 re_error_text)
      | OutOfModel => OutOfModel
      end
  end.

End GitService.

(** A path component: not empty, no slash. *)
Definition component (s : string) : bool :=
  nonempty s && negb (PyStr.has_char "/" s).

(** Case analysis over the 256 characters. *)
Ltac all_chars x :=
  destruct x as [[] [] [] [] [] [] [] []]; vm_compute; reflexivity.

(* ================================================================= *)
(** ** Dicts *)

Section DictFacts.
Variable V : Type.
Implicit Types (d : Dict.t V) (k : string) (v : V).

Lemma get_set_same d k v : Dict.get (Dict.set d k v) k = Some v.
Proof.
  induction d as [|[k' v'] d IH]; simpl.
  - now rewrite String.eqb_refl.
  - destruct (String.eqb k' k) eqn:E; simpl.
    + now rewrite String.eqb_refl.
    + now rewrite E.
Qed.

Lemma get_set_other d k k' v :
  k <> k' -> Dict.get (Dict.set d k v) k' = Dict.get d k'.
Proof.
  intros Hne. induction d as [|[k0 v0] d IH]; simpl.
  - destruct (String.eqb k k') eqn:E; [|reflexivity].
    apply String.eqb_eq in E. contradiction.
  - destruct (String.eqb k0 k) eqn:E; simpl.
    + apply String.eqb_eq in E. subst k0.
      destruct (String.eqb k k') eqn:E'; [|reflexivity].
      apply String.eqb_eq in E'. contradiction.
    + now rewrite IH.
Qed.

Lemma keys_set d k v q :
  In q (Dict.keys (Dict.set d k v)) <-> q = k \/ In q (Dict.keys d).
Proof.
  unfold Dict.keys.
  induction d as [|[k' v'] d IH]; simpl.
  - intuition.
  - destruct (String.eqb k' k) eqn:E; simpl.
    + apply String.eqb_eq in E. subst k'. intuition.
    + rewrite IH. intuition.
Qed.

Lemma keys_set_NoDup d k v :
  NoDup (Dict.keys d) -> NoDup (Dict.keys (Dict.set d k v)).
Proof.
  unfold Dict.keys.
  induction d as [|[k' v'] d IH]; simpl; intros Hnd.
  - constructor; [intros []|constructor].
  - inversion Hnd as [|? ? Hnotin Hnd']; subst.
    destruct (String.eqb k' k) eqn:E; simpl.
    + apply String.eqb_eq in E. subst k'. now constructor.
    + constructor; [|now apply IH].
      intros Hin. apply (keys_set d k v k') in Hin.
      destruct Hin as [-> | Hin]; [|contradiction].
      now rewrite String.eqb_refl in E.
Qed.
End DictFacts.

(* ================================================================= *)
(** ** The diff parser *)

Lemma run_app (st : parse_state) (l1 l2 : list string) :
  run st (l1 ++ l2) = run (run st l1) l2.
Proof. unfold run. apply fold_left_app. Qed.

Lemma run_cons (st : parse_state) (l : string) (ls : list string) :
  run st (l :: ls) = run (parse_step st l) ls.
Proof. reflexivity. Qed.

Lemma step_marker (st : parse_state) (m : string) :
  is_marker m = true ->
  parse_step st m = {| files := flush st;
                       current_file := Some (extract_path m);
                       current_changes := [] |}.
Proof. intros H. unfold parse_step. now rewrite H. Qed.

(** Inside a section only [current_changes] moves. *)
Lemma run_body (body : list string) (st : parse_state) :
  no_marker body = true ->
  run st body = {| files := files st;
                   current_file := current_file st;
                   current_changes := current_changes st ++ added_lines body |}.
Proof.
  revert st. induction body as [|l body IH]; intros st Hnm.
  - unfold added_lines. simpl. rewrite app_nil_r. now destruct st.
  - simpl in Hnm. apply andb_true_iff in Hnm. destruct Hnm as [Hl Hb].
    apply negb_true_iff in Hl.
    rewrite run_cons, (IH _ Hb). unfold parse_step, added_lines. rewrite Hl.
    simpl. destruct (is_added l); simpl.
    + now rewrite <- app_assoc.
    + reflexivity.
Qed.

Lemma flush_get_other (st : parse_state) (p : string) :
  current_file st <> Some p ->
  Dict.get (flush st) p = Dict.get (files st) p.
Proof.
  intros Hne. unfold flush.
  destruct (current_file st) as [[|c f]|]; try reflexivity.
  apply get_set_other. congruence.
Qed.

(** An entry survives the sections of other files. *)
Lemma run_keeps_entry (p : string) (rest : list string) (st : parse_state) :
  no_section_for p rest = true ->
  current_file st <> Some p ->
  Dict.get (files (run st rest)) p = Dict.get (files st) p /\
  current_file (run st rest) <> Some p.
Proof.
  revert st. induction rest as [|l rest IH]; intros st Hno Hcur.
  - now split.
  - simpl in Hno. apply andb_true_iff in Hno. destruct Hno as [Hl Hrest].
    rewrite run_cons.
    assert (Hstep : Dict.get (files (parse_step st l)) p = Dict.get (files st) p
                    /\ current_file (parse_step st l) <> Some p).
    { unfold parse_step. destruct (is_marker l) eqn:Hm; simpl.
      - split; [now apply flush_get_other|].
        simpl in Hl. apply negb_true_iff in Hl.
        intros E. injection E as E. rewrite E, String.eqb_refl in Hl.
        discriminate.
      - destruct (is_added l); simpl; now split. }
    destruct Hstep as [Hget Hcur'].
    destruct (IH _ Hrest Hcur') as [Hget' Hcur''].
    split; [congruence|assumption].
Qed.

(** The entry of a path is the content of the last section opened for it. *)
Lemma section_lookup (lines before : list string) (m : string)
      (body rest : list string) :
  is_section lines before m body rest ->
  no_section_for (extract_path m) rest = true ->
  Dict.get (parse_lines lines) (extract_path m) = Some (added_lines body).
Proof.
  intros (Hlines & Hm & Hne & Hbody & Hends) Hlast.
  unfold parse_lines. fold (run parse_init lines). subst lines.
  rewrite run_app, run_cons, run_app, (step_marker _ _ Hm), (run_body _ _ Hbody).
  simpl.
  set (p := extract_path m) in *.
  set (st0 := run parse_init before).
  destruct rest as [|m' rest].
  - simpl. unfold flush. simpl.
    destruct p as [|c f]; [discriminate|]. apply get_set_same.
  - simpl in Hends, Hlast. apply andb_true_iff in Hlast.
    destruct Hlast as [Hm' Hrest]. rewrite Hends in Hm'. simpl in Hm'.
    apply negb_true_iff in Hm'.
    rewrite run_cons, (step_marker _ _ Hends).
    match goal with |- Dict.get (flush (run ?st rest)) p = _ =>
      assert (Hcur : current_file st <> Some p)
    end.
    { simpl. intros E. injection E as E. rewrite E, String.eqb_refl in Hm'.
      discriminate. }
    destruct (run_keeps_entry _ _ _ Hrest Hcur) as [Hget Hcur'].
    rewrite (flush_get_other _ _ Hcur'), Hget. simpl.
    unfold flush. simpl.
    destruct p as [|c f]; [discriminate|]. apply get_set_same.
Qed.

Lemma marker_paths_app (l1 l2 : list string) :
  marker_paths (l1 ++ l2) = marker_paths l1 ++ marker_paths l2.
Proof. unfold marker_paths. now rewrite filter_app, map_app. Qed.

Lemma marker_paths_marker (m : string) (ls : list string) :
  is_marker m = true -> marker_paths (m :: ls) = extract_path m :: marker_paths ls.
Proof. intros H. unfold marker_paths. simpl. now rewrite H. Qed.

Lemma marker_paths_length (lines : list string) :
  List.length (marker_paths lines) = List.length (filter is_marker lines).
Proof. unfold marker_paths. apply length_map. Qed.

Lemma nonempty_true (p : string) : nonempty p = true <-> p <> EmptyString.
Proof. destruct p; simpl; split; congruence. Qed.

Lemma flush_keys (st : parse_state) (q : string) :
  In q (Dict.keys (flush st)) <->
  In q (Dict.keys (files st)) \/ (current_file st = Some q /\ nonempty q = true).
Proof.
  unfold flush. destruct (current_file st) as [[|c f]|].
  - split; [now left|]. intros [H | [E H]]; [assumption|].
    injection E as <-. discriminate.
  - rewrite keys_set. split.
    + intros [-> | H]; [right; now split | now left].
    + intros [H | [E _]]; [now right | left; congruence].
  - split; [now left|]. now intros [H | [E _]].
Qed.

Lemma flush_NoDup (st : parse_state) :
  NoDup (Dict.keys (files st)) -> NoDup (Dict.keys (flush st)).
Proof.
  intros H. unfold flush. destruct (current_file st) as [[|c f]|]; try assumption.
  now apply keys_set_NoDup.
Qed.

Lemma parse_inv_init : parse_inv parse_init [].
Proof.
  repeat split; simpl; try constructor; try contradiction; try discriminate.
Qed.

Lemma parse_inv_step (st : parse_state) (seen : list string) (l : string) :
  parse_inv st seen -> parse_inv (parse_step st l) (seen ++ marker_paths [l]).
Proof.
  intros (Hnd & Hkeys & Hcur & Hall).
  unfold parse_step, marker_paths. simpl.
  destruct (is_marker l) eqn:Hm; simpl.
  - repeat split.
    + now apply flush_NoDup.
    + apply flush_keys in H. destruct H as [H | [E H]]; [now apply Hkeys | assumption].
    + apply in_or_app. apply flush_keys in H.
      destruct H as [H | [E _]]; left; [now apply Hkeys | now apply Hcur].
    + intros p E. injection E as <-. apply in_or_app. right. now left.
    + intros p Hp Hin. apply in_app_or in Hin.
      destruct Hin as [Hin | [<- | []]]; [|now right].
      left. apply flush_keys.
      destruct (Hall p Hp Hin) as [H | H]; [now left | right; now split].
  - rewrite app_nil_r.
    destruct (is_added l); simpl; repeat split; auto; now apply Hkeys.
Qed.

Lemma parse_inv_run (lines : list string) (st : parse_state) (seen : list string) :
  parse_inv st seen -> parse_inv (run st lines) (seen ++ marker_paths lines).
Proof.
  revert st seen. induction lines as [|l lines IH]; intros st seen Hinv.
  - unfold marker_paths. simpl. now rewrite app_nil_r.
  - rewrite run_cons. change (l :: lines) with ([l] ++ lines).
    rewrite marker_paths_app, app_assoc. apply IH. now apply parse_inv_step.
Qed.

(** The keys of the result: no duplicates, all of them non-empty marker
    paths, every non-empty marker path among them. *)
Lemma parse_lines_keys (lines : list string) :
  let d := parse_lines lines in
  NoDup (Dict.keys d) /\
  (forall p, In p (Dict.keys d) -> nonempty p = true /\ In p (marker_paths lines)) /\
  (forall p, nonempty p = true -> In p (marker_paths lines) -> In p (Dict.keys d)).
Proof.
  pose proof (parse_inv_run lines parse_init [] parse_inv_init) as Hinv.
  simpl in Hinv. destruct Hinv as (Hnd & Hkeys & Hcur & Hall).
  unfold parse_lines. fold (run parse_init lines).
  repeat split.
  - now apply flush_NoDup.
  - apply flush_keys in H. destruct H as [H | [E H]]; [now apply Hkeys | assumption].
  - apply flush_keys in H. destruct H as [H | [E _]]; [now apply Hkeys | now apply Hcur].
  - intros p Hp Hin. apply flush_keys.
    destruct (Hall p Hp Hin) as [H | H]; [now left | right; now split].
Qed.




(** A path with two markers costs an entry. *)
Lemma parse_lines_size_lt (lines : list string) (a b c : list string) (p : string) :
  marker_paths lines = a ++ p :: b ++ p :: c ->
  (Dict.size (parse_lines lines) < List.length (filter is_marker lines))%nat.
Proof.
  intros Hpaths.
  destruct (parse_lines_keys lines) as (Hnd & Hkeys & _).
  rewrite <- marker_paths_length, Hpaths. unfold Dict.size.
  rewrite <- (length_map fst).
  assert (Hle : (List.length (map fst (parse_lines lines))
                 <= List.length (a ++ b ++ p :: c))%nat).
  { apply NoDup_incl_length; [exact Hnd|].
    intros q Hq. apply Hkeys in Hq. destruct Hq as [_ Hq]. rewrite Hpaths in Hq.
    rewrite !in_app_iff in *. simpl in *. rewrite !in_app_iff in *. simpl in *.
    intuition. }
  rewrite !length_app in *. simpl in *. rewrite !length_app in *. simpl in *. lia.
Qed.

(* ================================================================= *)
(** ** Claims on the diff parser *)




Lemma get_not_key {V : Type} (d : Dict.t V) (k : string) :
  ~ In k (Dict.keys d) -> Dict.get d k = None.
Proof.
  induction d as [|[k0 v0] d IH]; simpl; [reflexivity|].
  intros Hnot. destruct (String.eqb k0 k) eqn:E.
  - apply String.eqb_eq in E. exfalso. apply Hnot. now left.
  - apply IH. intros H. apply Hnot. now right.
Qed.

(** C9, as stated, fails: two sections that extract the same path, the
    empty one, leave no entry for it at all. *)
Lemma empty_path_sections_vanish :
  extract_path "diff --git a b" = EmptyString /\
  List.length (filter is_marker (Py.split Py.LF empty_path_diff)) = 2%nat /\
  _parse_diff empty_path_diff = [] /\
  Dict.get (_parse_diff empty_path_diff) EmptyString = None.
Proof. repeat split; reflexivity. Qed.

(** C9, amended.  When two sections extract the same path and that path is
    not empty, the mapping has a single entry for it, holding the added
    lines of the later section only; when the path is empty the mapping has
    no entry for it.  Either way the mapping has fewer entries than the text
    has [diff --git] lines. *)
Theorem later_section_overwrites (diff_content : string)
        (pre : list string) (m1 : string) (between : list string)
        (m2 : string) (body2 rest : list string) :
  let lines := Py.split Py.LF diff_content in
  let d := _parse_diff diff_content in
  lines = (pre ++ m1 :: between) ++ m2 :: body2 ++ rest ->
  is_marker m1 = true ->
  is_marker m2 = true ->
  no_marker body2 = true ->
  section_ends rest = true ->
  extract_path m1 = extract_path m2 ->
  no_section_for (extract_path m2) rest = true ->
  (extract_path m2 <> EmptyString ->
   Dict.get d (extract_path m2) = Some (added_lines body2) /\
   count_occ string_dec (Dict.keys d) (extract_path m2) = 1%nat) /\
  (extract_path m2 = EmptyString -> Dict.get d EmptyString = None) /\
  (Dict.size d < List.length (filter is_marker lines))%nat.
Proof.
  intros lines d Hlines Hm1 Hm2 Hbody Hends Hsame Hlast.
  subst d. unfold _parse_diff. fold lines.
  destruct (parse_lines_keys lines) as (Hnd & Hkeys & Hall).
  assert (Hpaths : marker_paths lines =
                   marker_paths pre ++ extract_path m2 ::
                   marker_paths between ++ extract_path m2 ::
                   marker_paths (body2 ++ rest)).
  { rewrite Hlines, marker_paths_app, (marker_paths_marker m2 _ Hm2).
    rewrite marker_paths_app, (marker_paths_marker m1 _ Hm1), Hsame.
    now rewrite <- app_assoc. }
  split; [|split].
  - intros Hne. apply nonempty_true in Hne. split.
    + apply section_lookup with (before := pre ++ m1 :: between) (rest := rest);
        [|exact Hlast].
      repeat split; assumption.
    + apply NoDup_count_occ'; [exact Hnd|].
      apply Hall; [exact Hne|]. rewrite Hpaths. apply in_or_app. right. now left.
  - intros _. apply get_not_key. intros Hin.
    destruct (Hkeys _ Hin) as [Hne _]. discriminate.
  - eapply parse_lines_size_lt. exact Hpaths.
Qed.

Lemma later_section_overwrites_witness :
  Dict.get (_parse_diff twice_x_diff) "x" = Some ["new"] /\
  count_occ string_dec (Dict.keys (_parse_diff twice_x_diff)) "x" = 1%nat /\
  (Dict.size (_parse_diff twice_x_diff) < 2)%nat.
Proof.
  destruct (later_section_overwrites twice_x_diff
              [] "diff --git a/x b/x" ["+old"] "diff --git a/x b/x" ["+new"] [])
    as (Hentry & _ & Hsize); try reflexivity.
  destruct Hentry as [Hget Hone]; [discriminate|].
  repeat split; assumption.
Defined.

Lemma drop_length (n : nat) (s : string) :
  String.length (Py.drop n s) = (String.length s - n)%nat.
Proof.
  revert s. induction n as [|n IH]; intros s; simpl.
  - now rewrite Nat.sub_0_r.
  - destruct s as [|c s]; simpl; [reflexivity | apply IH].
Qed.

Lemma split_not_nil (sep : ascii) (s : string) : Py.split sep s <> [].
Proof.
  induction s as [|c s IH]; simpl; [discriminate|].
  destruct (Ascii.eqb c sep); [discriminate|].
  destruct (Py.split sep s); [contradiction | discriminate].
Qed.

(** C4.  The path is the final token less its first two characters whatever
    they are: a token without the side indicator is not passed through
    unstripped.  [src/app.py] comes out as [c/app.py].  The parser itself is
    total: [split] never returns the empty list, so [parts[-1]] is defined. *)
Theorem extract_path_always_strips :
  (forall line,
      String.length (extract_path line)
      = (String.length (Py.last_part (Py.split " " line)) - 2)%nat) /\
  (forall sep s, Py.split sep s <> []) /\
  extract_path "diff --git src/app.py src/app.py" = "c/app.py" /\
  _parse_diff no_prefix_diff = [("c/app.py", ["x = 1"])].
Proof.
  split; [intros line; apply drop_length|].
  split; [exact split_not_nil|].
  split; reflexivity.
Qed.

(* ================================================================= *)
(** ** Matching under IGNORECASE does not see letter case *)

Lemma isspace_lower (x : ascii) : Py.isspace (Py.lower_char x) = Py.isspace x.
Proof. all_chars x. Qed.

Lemma is_word_lower (x : ascii) : Re.is_word (Py.lower_char x) = Re.is_word x.
Proof. all_chars x. Qed.

Lemma is_digit_lower (x : ascii) : Py.is_digit (Py.lower_char x) = Py.is_digit x.
Proof. all_chars x. Qed.

Lemma is_LF_lower (x : ascii) :
  Ascii.eqb (Py.lower_char x) Py.LF = Ascii.eqb x Py.LF.
Proof. all_chars x. Qed.

Lemma fold_stable_of_lower (ok : ascii -> bool) :
  (forall x, ok (Py.lower_char x) = ok x) -> fold_stable ok.
Proof. intros H x y E. rewrite <- (H x), <- (H y), E. reflexivity. Qed.

Lemma cat_match_stable (k : Re.category) : fold_stable (Re.cat_match k).
Proof.
  apply fold_stable_of_lower. intros x.
  destruct k; simpl;
    now rewrite ?isspace_lower, ?is_word_lower, ?is_digit_lower.
Qed.

Lemma lit_match_stable (c : ascii) : fold_stable (Re.lit_match true c).
Proof. intros x y E. unfold Re.lit_match. now rewrite E. Qed.

Lemma item_match_stable (it : Re.set_item) : fold_stable (Re.item_match true it).
Proof.
  destruct it as [c | k]; simpl;
    [apply lit_match_stable | apply cat_match_stable].
Qed.

Lemma set_match_stable (neg : bool) (its : list Re.set_item) :
  fold_stable (Re.set_match true neg its).
Proof.
  intros x y E. unfold Re.set_match. f_equal.
  induction its as [|it its IH]; simpl; [reflexivity|].
  now rewrite (item_match_stable it x y E), IH.
Qed.

Lemma dot_stable : fold_stable (fun x => negb (Ascii.eqb x Py.LF)).
Proof.
  apply fold_stable_of_lower. intros x. now rewrite is_LF_lower.
Qed.

Lemma lower_length (s : string) : String.length (Py.lower s) = String.length s.
Proof.
  unfold Py.lower. induction s as [|c s IH]; simpl; [reflexivity | now rewrite IH].
Qed.

Lemma same_fold_length (s t : string) :
  same_fold s t -> String.length s = String.length t.
Proof.
  unfold same_fold. intros E.
  rewrite <- (lower_length s), <- (lower_length t), E. reflexivity.
Qed.

Lemma same_fold_cons (x y : ascii) (s t : string) :
  same_fold (String x s) (String y t) <->
  Py.lower_char x = Py.lower_char y /\ same_fold s t.
Proof.
  unfold same_fold, Py.lower. cbn [Py.map_chars]. split.
  - intros E. injection E as E1 E2. now split.
  - intros [E1 E2]. now rewrite E1, E2.
Qed.

Lemma same_fold_nil_l (t : string) : same_fold EmptyString t -> t = EmptyString.
Proof. destruct t; [reflexivity | discriminate]. Qed.

Lemma same_fold_nil_r (s : string) : same_fold s EmptyString -> s = EmptyString.
Proof. destruct s; [reflexivity | discriminate]. Qed.

Lemma at_eol_fold (s t : string) : same_fold s t -> Re.at_eol s = Re.at_eol t.
Proof.
  intros E. destruct s as [|x s], t as [|y t]; try discriminate; [reflexivity|].
  apply same_fold_cons in E. destruct E as [Ec Es]. simpl.
  destruct s as [|x' s], t as [|y' t]; try discriminate; [|reflexivity].
  now rewrite <- (is_LF_lower x), <- (is_LF_lower y), Ec.
Qed.

Lemma one_fold (ok : ascii -> bool) (s t : string) :
  fold_stable ok -> same_fold s t ->
  map Py.lower (Re.one ok s) = map Py.lower (Re.one ok t).
Proof.
  intros Hok E. destruct s as [|x s], t as [|y t]; try discriminate; [reflexivity|].
  apply same_fold_cons in E. destruct E as [Ec Es]. simpl.
  rewrite (Hok x y Ec). destruct (ok y); simpl; [|reflexivity].
  unfold same_fold in Es. now rewrite Es.
Qed.

Lemma filter_fold (p q : string -> bool) (l1 l2 : list string) :
  (forall x y, same_fold x y -> p x = q y) ->
  map Py.lower l1 = map Py.lower l2 ->
  map Py.lower (filter p l1) = map Py.lower (filter q l2).
Proof.
  intros Hpq. revert l2. induction l1 as [|x l1 IH]; intros [|y l2] E;
    try discriminate; [reflexivity|].
  simpl in E. injection E as Exy E. simpl.
  rewrite (Hpq x y Exy). destruct (q y); simpl; [f_equal; [exact Exy|]|]; now apply IH.
Qed.

Lemma flat_map_fold (f g : string -> list string) (l1 l2 : list string) :
  (forall x y, same_fold x y -> map Py.lower (f x) = map Py.lower (g y)) ->
  map Py.lower l1 = map Py.lower l2 ->
  map Py.lower (flat_map f l1) = map Py.lower (flat_map g l2).
Proof.
  intros Hfg. revert l2. induction l1 as [|x l1 IH]; intros [|y l2] E;
    try discriminate; [reflexivity|].
  simpl in E. injection E as Exy E. simpl.
  rewrite !map_app, (Hfg x y Exy). f_equal. now apply IH.
Qed.

Lemma shorter_fold (s t x y : string) :
  same_fold s t -> same_fold x y -> Re.shorter s x = Re.shorter t y.
Proof.
  intros Es Ex. unfold Re.shorter.
  now rewrite (same_fold_length s t Es), (same_fold_length x y Ex).
Qed.

Lemma star_ends_fold (step : string -> list string) :
  (forall s t, same_fold s t -> map Py.lower (step s) = map Py.lower (step t)) ->
  forall fuel s t, same_fold s t ->
    map Py.lower (Re.star_ends step fuel s) = map Py.lower (Re.star_ends step fuel t).
Proof.
  intros Hstep. induction fuel as [|n IH]; intros s t E; simpl.
  - unfold same_fold in E. now rewrite E.
  - rewrite !map_app. f_equal; [|simpl; unfold same_fold in E; now rewrite E].
    apply flat_map_fold; [exact (IH)|].
    apply filter_fold; [intros x y; now apply shorter_fold | now apply Hstep].
Qed.

Lemma ends_fold (r : Re.regex) (s t : string) :
  same_fold s t ->
  map Py.lower (Re.ends true r s) = map Py.lower (Re.ends true r t).
Proof.
  revert s t. induction r as [| c | | k | neg its | | r IH | r IH | r IH
                                | r1 IH1 r2 IH2 | r1 IH1 r2 IH2];
    intros s t E; simpl.
  - unfold same_fold in E. now rewrite E.
  - apply one_fold; [apply lit_match_stable | exact E].
  - apply one_fold; [apply dot_stable | exact E].
  - apply one_fold; [apply cat_match_stable | exact E].
  - apply one_fold; [apply set_match_stable | exact E].
  - rewrite (at_eol_fold s t E). destruct (Re.at_eol t); [|reflexivity].
    simpl. unfold same_fold in E. now rewrite E.
  - rewrite (same_fold_length s t E). now apply star_ends_fold.
  - apply flat_map_fold; [|now apply IH].
    intros x y Exy. rewrite (same_fold_length x y Exy).
    now apply star_ends_fold.
  - rewrite !map_app. f_equal; [now apply IH|].
    simpl. unfold same_fold in E. now rewrite E.
  - apply flat_map_fold; [exact IH2 | now apply IH1].
  - rewrite !map_app. f_equal; [now apply IH1 | now apply IH2].
Qed.

Lemma matches_here_fold (r : Re.regex) (s t : string) :
  same_fold s t -> Re.matches_here true r s = Re.matches_here true r t.
Proof.
  intros E. unfold Re.matches_here. pose proof (ends_fold r s t E) as H.
  destruct (Re.ends true r s), (Re.ends true r t); try discriminate; reflexivity.
Qed.

Lemma matches_somewhere_fold (r : Re.regex) (s t : string) :
  same_fold s t -> Re.matches_somewhere true r s = Re.matches_somewhere true r t.
Proof.
  revert t. induction s as [|x s IH]; intros t E.
  - apply same_fold_nil_l in E. now subst t.
  - destruct t as [|y t]; [discriminate|].
    simpl. rewrite (matches_here_fold r _ _ E).
    apply same_fold_cons in E. destruct E as [_ E]. now rewrite (IH t E).
Qed.

Lemma search_fold (pattern s t : string) :
  same_fold s t -> Re.search pattern s true = Re.search pattern t true.
Proof.
  intros E. unfold Re.search, Re.with_compiled.
  destruct (Re.compile pattern); try reflexivity.
  now rewrite (matches_somewhere_fold r s t E).
Qed.

Lemma check_patterns_fold (table : list (string * string)) (s t : string)
      (issues : list string) :
  same_fold s t -> check_patterns table s issues = check_patterns table t issues.
Proof.
  intros E. revert issues. induction table as [|[pattern msg] table IH];
    intros issues; simpl; [reflexivity|].
  rewrite (search_fold pattern s t E).
  destruct (Re.search pattern t true) as [hit| |]; simpl; try reflexivity.
  apply IH.
Qed.

(* ================================================================= *)
(** ** The rule engine *)

Lemma search_compiles (pattern line_content : string) :
  compiles pattern = true ->
  Re.search pattern line_content true = Ret (found pattern line_content).
Proof.
  unfold compiles, found, Re.search, Re.with_compiled.
  destruct (Re.compile pattern); (reflexivity || discriminate).
Qed.

Lemma search_malformed (pattern line_content : string) :
  malformed pattern = true ->
  Re.search pattern line_content true = Raise re_error.
Proof.
  unfold malformed, Re.search, Re.with_compiled.
  destruct (Re.compile pattern); (reflexivity || discriminate).
Qed.

Lemma match_compiles (pattern line_content : string) :
  compiles pattern = true ->
  Re.match_ pattern line_content = Ret (found_at_start pattern line_content).
Proof.
  unfold compiles, found_at_start, Re.match_, Re.with_compiled.
  destruct (Re.compile pattern); (reflexivity || discriminate).
Qed.

(** The loop with its accumulator is a filter of the table. *)
Lemma check_patterns_compiles (table : list (string * string))
      (line_content : string) (issues : list string) :
  table_compiles table = true ->
  check_patterns table line_content issues
  = Ret (issues ++ matched_messages table line_content).
Proof.
  revert issues. induction table as [|[pattern msg] table IH];
    intros issues Hc; simpl.
  - unfold matched_messages. simpl. now rewrite app_nil_r.
  - simpl in Hc. apply andb_true_iff in Hc. destruct Hc as [Hp Ht].
    rewrite (search_compiles _ _ Hp). simpl. rewrite (IH _ Ht).
    unfold matched_messages. simpl.
    destruct (found pattern line_content); simpl; [|reflexivity].
    now rewrite <- app_assoc.
Qed.


Lemma python_line_total (line_content : string) :
  _analyze_python_line line_content = Ret (python_issues line_content).
Proof.
  unfold _analyze_python_line, python_issues.
  rewrite match_compiles by (vm_compute; reflexivity).
  unfold bind.
  set (a := found_at_start _ line_content && negb (Py.contains line_content "->")).
  set (b := (88 <? String.length (Py.strip line_content))%nat).
  set (c := Py.startswith (Py.strip line_content) "import "
            && negb (Py.contains line_content "#")).
  destruct a, b, c; reflexivity.
Qed.

Lemma analyze_line_findings (self : CodeAnalyzer) (file_path : string)
      (line_num : Z) (line_content : string) :
  analyzer_compiles self = true ->
  analyze_line self file_path line_num line_content
  = Ret (line_findings self file_path line_num line_content).
Proof.
  intros Hc. apply andb_true_iff in Hc. destruct Hc as [Hs Hq].
  unfold analyze_line, _check_security_patterns, _check_quality_patterns.
  rewrite (check_patterns_compiles _ line_content [] Hs).
  rewrite (check_patterns_compiles _ line_content [] Hq).
  unfold bind, line_findings, security_finding, quality_finding, python_finding.
  rewrite !app_nil_l.
  destruct (Py.endswith file_path ".py").
  - rewrite python_line_total. now rewrite app_assoc.
  - now rewrite app_nil_r.
Qed.

Lemma analyze_lines_findings (self : CodeAnalyzer) (file_path : string)
      (changes : list string) (line_num : Z) (fb : list CodeFeedback) :
  analyzer_compiles self = true ->
  analyze_lines self file_path changes line_num fb
  = Ret (fb ++ flat_map (fun nl => line_findings self file_path (fst nl) (snd nl))
                        (enumerate line_num changes)).
Proof.
  intros Hc. revert line_num fb.
  induction changes as [|l changes IH]; intros line_num fb;
    cbn [analyze_lines].
  - cbn [enumerate flat_map]. now rewrite app_nil_r.
  - rewrite (analyze_line_findings _ _ _ _ Hc). unfold bind.
    rewrite IH. cbn [enumerate flat_map fst snd]. now rewrite <- app_assoc.
Qed.

Lemma line_findings_on_line (self : CodeAnalyzer) (file_path : string)
      (n : Z) (line_content : string) (f : CodeFeedback) :
  In f (line_findings self file_path n line_content) -> line f = n.
Proof.
  unfold line_findings. rewrite !in_app_iff, !in_map_iff.
  intros [(m & <- & _) | [(m & <- & _) | H]]; try reflexivity.
  destruct (Py.endswith file_path ".py"); [|contradiction].
  apply in_map_iff in H. destruct H as (i & <- & _). reflexivity.
Qed.

Lemma filter_all {A : Type} (p : A -> bool) (l : list A) :
  (forall x, In x l -> p x = true) -> filter p l = l.
Proof.
  induction l as [|x l IH]; intros H; simpl; [reflexivity|].
  rewrite (H x (or_introl eq_refl)). f_equal. apply IH.
  intros y Hy. apply H. now right.
Qed.

Lemma filter_none {A : Type} (p : A -> bool) (l : list A) :
  (forall x, In x l -> p x = false) -> filter p l = [].
Proof.
  induction l as [|x l IH]; intros H; simpl; [reflexivity|].
  rewrite (H x (or_introl eq_refl)). apply IH.
  intros y Hy. apply H. now right.
Qed.

Lemma later_lines_filtered (self : CodeAnalyzer) (file_path : string)
      (changes : list string) (start n : Z) :
  (n < start)%Z ->
  filter (on_line n)
         (flat_map (fun nl => line_findings self file_path (fst nl) (snd nl))
                   (enumerate start changes)) = [].
Proof.
  revert start. induction changes as [|l changes IH]; intros start Hlt; simpl.
  - reflexivity.
  - rewrite filter_app, IH by lia. rewrite app_nil_r.
    apply filter_none. intros f Hf. apply line_findings_on_line in Hf.
    unfold on_line. apply Z.eqb_neq. lia.
Qed.

(** The findings numbered [start + k] are those of the [k]th added line. *)
Lemma findings_of_line (self : CodeAnalyzer) (file_path : string)
      (changes : list string) (start : Z) (k : nat) (line_content : string) :
  nth_error changes k = Some line_content ->
  filter (on_line (start + Z.of_nat k))
         (flat_map (fun nl => line_findings self file_path (fst nl) (snd nl))
                   (enumerate start changes))
  = line_findings self file_path (start + Z.of_nat k) line_content.
Proof.
  revert start k. induction changes as [|l changes IH]; intros start k Hk.
  - destruct k; discriminate.
  - destruct k as [|k]; simpl in Hk.
    + injection Hk as ->. simpl. rewrite Z.add_0_r.
      rewrite filter_app, later_lines_filtered by lia. rewrite app_nil_r.
      apply filter_all. intros f Hf. apply line_findings_on_line in Hf.
      unfold on_line. now apply Z.eqb_eq.
    + simpl enumerate. simpl flat_map. rewrite filter_app.
      replace (start + Z.of_nat (S k))%Z with ((start + 1) + Z.of_nat k)%Z by lia.
      rewrite (IH _ _ Hk).
      rewrite filter_none; [reflexivity|].
      intros f Hf. apply line_findings_on_line in Hf.
      unfold on_line. apply Z.eqb_neq. simpl in Hf. lia.
Qed.

Lemma init_compiles : analyzer_compiles __init__ = true.
Proof. vm_compute. reflexivity. Qed.

(* ================================================================= *)
(** ** Claims on the rule engine *)




(** C5.  Whatever the file and the line, the findings of a line are the
    security findings, then the quality findings, then (for a [.py] file)
    the extension-specific ones, each group in the order its rules are
    declared; in the feedback of a file the findings numbered [k] are these,
    computed from the [k]th added line. *)
Theorem findings_in_group_order (self : CodeAnalyzer) (file_path : string)
        (changes : list string) :
  analyzer_compiles self = true ->
  (forall line_num line_content,
      analyze_line self file_path line_num line_content
      = Ret (map (security_finding file_path line_num)
                 (map snd (filter (fun rule => found (fst rule) line_content)
                                  self.(security_patterns))) ++
             map (quality_finding file_path line_num)
                 (map snd (filter (fun rule => found (fst rule) line_content)
                                  self.(quality_patterns))) ++
             (if Py.endswith file_path ".py"
              then map (python_finding file_path line_num)
                       (python_issues line_content)
              else []))) /\
  exists fb,
    _analyze_file_changes self file_path changes = Ret fb /\
    forall k line_content,
      nth_error changes k = Some line_content ->
      filter (on_line (1 + Z.of_nat k)) fb
      = line_findings self file_path (1 + Z.of_nat k) line_content.
Proof.
  intros Hc. split.
  - intros line_num line_content. now apply analyze_line_findings.
  - eexists. split.
    + unfold _analyze_file_changes. now apply analyze_lines_findings.
    + intros k line_content Hk. rewrite app_nil_l. now apply findings_of_line.
Qed.

Lemma findings_in_group_order_witness :
  analyze_line __init__ "app.py" 7 "eval(input())  # TODO"
  = Ret [security_finding "app.py" 7
           "Avoid using eval() as it can execute arbitrary code";
         quality_finding "app.py" 7
           "TODO/FIXME comment found - consider addressing"].
Proof.
  rewrite (proj1 (findings_in_group_order __init__ "app.py" [] init_compiles)).
  vm_compute. reflexivity.
Defined.

(** C7.  Scenario B: for the diff whose only added line is [def foo(x):] in
    [mod.py] the pipeline reports exactly two findings, the missing-docstring
    warning of severity 3 and the type-hint suggestion of severity 2, and
    the score 92; the same two findings and score come out for any file whose
    path ends in [.py]. *)
Theorem scenario_def_foo :
  (forall files adds dels cs branch base,
      analyze_changes __init__ (mk_pr_data files adds dels cs foo_diff branch base)
      = Ret {| score := 92;
               feedback := [docstring_warning "mod.py";
                            type_hint_suggestion "mod.py"];
               resp_files_changed := Z.of_nat (List.length files);
               lines_added := adds;
               lines_removed := dels;
               recommendations :=
                 ["Add documentation to improve code maintainability"] |}) /\
  (forall file_path,
      Py.endswith file_path ".py" = true ->
      analyze_sections __init__ [(file_path, ["def foo(x):"])] []
      = Ret [docstring_warning file_path; type_hint_suggestion file_path] /\
      _calculate_score [docstring_warning file_path; type_hint_suggestion file_path]
      = 92%Z).
Proof.
  split.
  - intros. vm_compute. reflexivity.
  - intros file_path Hpy. split; [|vm_compute; reflexivity].
    cbn [analyze_sections].
    assert (Hcode : _is_code_file file_path = true).
    { unfold _is_code_file. cbn [existsb]. now rewrite Hpy. }
    rewrite Hcode. unfold _analyze_file_changes.
    rewrite (analyze_lines_findings _ _ _ _ _ init_compiles).
    cbn [enumerate flat_map fst snd bind]. unfold line_findings. rewrite Hpy.
    vm_compute. reflexivity.
Qed.

Lemma scenario_def_foo_witness :
  analyze_sections __init__ [("pkg/util.py", ["def foo(x):"])] []
  = Ret [docstring_warning "pkg/util.py"; type_hint_suggestion "pkg/util.py"] /\
  _calculate_score [docstring_warning "pkg/util.py";
                    type_hint_suggestion "pkg/util.py"] = 92%Z.
Proof.
  apply (proj2 scenario_def_foo "pkg/util.py"). reflexivity.
Defined.

(** C8.  Quality rules are searched without regard to letter case, as
    security rules are: two lines that differ in case only get the same
    findings from every table, and [PRINT(x)] and [Todo] trigger the print
    and the TODO rule. *)
Theorem quality_rules_ignore_case :
  (forall self line1 line2,
      Py.lower line1 = Py.lower line2 ->
      _check_quality_patterns self line1 = _check_quality_patterns self line2 /\
      _check_security_patterns self line1 = _check_security_patterns self line2) /\
  _check_quality_patterns __init__ "PRINT(x)"
  = Ret ["Consider using logging instead of print statements"] /\
  _check_quality_patterns __init__ "# Todo: later"
  = Ret ["TODO/FIXME comment found - consider addressing"] /\
  _check_quality_patterns __init__ "Class Foo:"
  = Ret ["Class missing docstring"].
Proof.
  split.
  - intros self line1 line2 E. split; now apply check_patterns_fold.
  - repeat split; vm_compute; reflexivity.
Qed.

Lemma quality_rules_ignore_case_witness :
  _check_quality_patterns __init__ "Print (x)  # fixme"
  = _check_quality_patterns __init__ "PRINT (X)  # FixMe".
Proof.
  refine (proj1 (proj1 quality_rules_ignore_case __init__
                       "Print (x)  # fixme" "PRINT (X)  # FixMe" _)).
  vm_compute. reflexivity.
Defined.

Lemma no_info_in_security (file_path : string) (n : Z) (ms : list string) :
  filter is_info (map (security_finding file_path n) ms) = [].
Proof.
  apply filter_none. intros f Hf. apply in_map_iff in Hf.
  destruct Hf as (m & <- & _). reflexivity.
Qed.

Lemma no_info_in_quality (file_path : string) (n : Z) (ms : list string) :
  filter is_info (map (quality_finding file_path n) ms) = [].
Proof.
  apply filter_none. intros f Hf. apply in_map_iff in Hf.
  destruct Hf as (m & <- & _). reflexivity.
Qed.

Lemma info_in_python_issues (file_path : string) (n : Z) (line_content : string) :
  filter is_info (map (python_finding file_path n) (python_issues line_content))
  = if Py.startswith (Py.strip line_content) "import "
       && negb (Py.contains line_content "#")
    then [import_finding file_path n] else [].
Proof.
  unfold python_issues.
  set (a := found_at_start _ line_content && negb (Py.contains line_content "->")).
  set (b := (88 <? String.length (Py.strip line_content))%nat).
  set (c := Py.startswith (Py.strip line_content) "import "
            && negb (Py.contains line_content "#")).
  destruct a, b, c; reflexivity.
Qed.

(** The INFO findings of a line: the import finding when the rule fires,
    nothing otherwise. *)
Lemma info_findings_of_line (file_path : string) (n : Z) (line_content : string) :
  filter is_info (line_findings __init__ file_path n line_content)
  = if import_rule_fires file_path line_content
    then [import_finding file_path n] else [].
Proof.
  unfold line_findings, import_rule_fires.
  rewrite !filter_app, no_info_in_security, no_info_in_quality.
  cbn [app].
  destruct (Py.endswith file_path ".py"); [|reflexivity].
  rewrite info_in_python_issues. reflexivity.
Qed.

Lemma isspace_is_whitespace (c : ascii) : Py.isspace c = is_whitespace c.
Proof. all_chars c. Qed.

Lemma endswith_spec (s suf : string) :
  Py.endswith s suf = true <-> exists stem, s = (stem ++ suf)%string.
Proof.
  split.
  - induction s as [|c s IH]; cbn [Py.endswith].
    + destruct (String.eqb EmptyString suf) eqn:E; [|discriminate].
      apply String.eqb_eq in E. intros _. exists EmptyString. exact E.
    + destruct (String.eqb (String c s) suf) eqn:E.
      * apply String.eqb_eq in E. intros _. exists EmptyString. exact E.
      * intros H. destruct (IH H) as (stem & ->). now exists (String c stem).
  - intros (stem & ->). induction stem as [|c stem IH].
    + cbn [String.append]. destruct suf; cbn [Py.endswith];
        now rewrite String.eqb_refl.
    + cbn [String.append Py.endswith]. rewrite IH.
      now destruct (String.eqb (String c (stem ++ suf)) suf).
Qed.

Lemma startswith_spec (s p : string) :
  Py.startswith s p = true <-> exists rest, s = (p ++ rest)%string.
Proof.
  unfold Py.startswith. revert s. induction p as [|a p IH]; intros s.
  - split; [intros _; now exists s | now destruct s].
  - destruct s as [|b s]; cbn [String.prefix String.append].
    + split; [discriminate | intros (rest & H); discriminate].
    + destruct (ascii_dec a b) as [<- | Hne].
      * destruct (IH s) as [I1 I2]. split.
        -- intros H. destruct (I1 H) as (rest & ->). now exists rest.
        -- intros (rest & H). apply I2. exists rest. congruence.
      * split; [discriminate | intros (rest & H); congruence].
Qed.

Lemma contains_char_spec (s : string) (c : ascii) :
  Py.contains s (String c EmptyString) = true
  <-> In c (list_ascii_of_string s).
Proof.
  induction s as [|x s IH]; cbn [Py.contains String.prefix list_ascii_of_string In].
  - split; [discriminate | contradiction].
  - destruct (ascii_dec c x) as [<- | Hne].
    + split; [now left | now destruct s].
    + rewrite IH. split; [now right | intros [E | H]; [congruence | exact H]].
Qed.

Lemma blank_app (a b : string) : blank (a ++ b) = blank a && blank b.
Proof.
  unfold blank. induction a as [|c a IH]; [reflexivity|].
  cbn [String.append list_ascii_of_string forallb]. now rewrite IH, andb_assoc.
Qed.

Lemma lstrip_blank_app (a s : string) :
  blank a = true -> Py.lstrip (a ++ s) = Py.lstrip s.
Proof.
  unfold blank. induction a as [|c a IH]; [reflexivity|].
  cbn [String.append list_ascii_of_string forallb Py.lstrip].
  intros H. apply andb_true_iff in H. destruct H as [Hc Ha].
  now rewrite isspace_is_whitespace, Hc, (IH Ha).
Qed.

Lemma lstrip_blank (a : string) : blank a = true -> Py.lstrip a = EmptyString.
Proof.
  unfold blank. induction a as [|c a IH]; [reflexivity|].
  cbn [list_ascii_of_string forallb Py.lstrip].
  intros H. apply andb_true_iff in H. destruct H as [Hc Ha].
  now rewrite isspace_is_whitespace, Hc, (IH Ha).
Qed.

Lemma lstrip_clean (t : string) (a : ascii) :
  first_char t = Some a -> is_whitespace a = false -> Py.lstrip t = t.
Proof.
  destruct t as [|c t]; [discriminate|]. cbn [first_char Py.lstrip].
  intros E H. injection E as ->. now rewrite isspace_is_whitespace, H.
Qed.

Lemma lstrip_spec (s : string) :
  exists before,
    s = (before ++ Py.lstrip s)%string /\ blank before = true /\
    match first_char (Py.lstrip s) with
    | Some a => is_whitespace a = false
    | None => True
    end.
Proof.
  induction s as [|c s IH].
  - exists EmptyString. repeat split.
  - cbn [Py.lstrip]. rewrite isspace_is_whitespace.
    destruct (is_whitespace c) eqn:Hc.
    + destruct IH as (before & Hs & Hb & Hf). exists (String c before).
      cbn [String.append]. split; [now rewrite <- Hs|]. split; [|exact Hf].
      unfold blank in *. cbn [list_ascii_of_string forallb]. now rewrite Hc, Hb.
    + exists EmptyString. repeat split. exact Hc.
Qed.

Lemma rstrip_blank (a : string) : blank a = true -> Py.rstrip a = EmptyString.
Proof.
  unfold blank. induction a as [|c a IH]; [reflexivity|].
  cbn [list_ascii_of_string forallb Py.rstrip].
  intros H. apply andb_true_iff in H. destruct H as [Hc Ha].
  now rewrite (IH Ha), isspace_is_whitespace, Hc.
Qed.

Lemma rstrip_app_blank (t a : string) :
  blank a = true -> Py.rstrip (t ++ a) = Py.rstrip t.
Proof.
  intros Ha. induction t as [|c t IH].
  - cbn [String.append]. now rewrite (rstrip_blank a Ha).
  - cbn [String.append Py.rstrip]. now rewrite IH.
Qed.

Lemma last_char_none (t : string) : last_char t = None -> t = EmptyString.
Proof.
  destruct t as [|c t]; [reflexivity|]. cbn [last_char].
  destruct (last_char t); discriminate.
Qed.

Lemma rstrip_clean (t : string) (b : ascii) :
  last_char t = Some b -> is_whitespace b = false -> Py.rstrip t = t.
Proof.
  induction t as [|c t IH]; [discriminate|].
  cbn [last_char Py.rstrip]. destruct (last_char t) as [b'|] eqn:El.
  - intros E Hb. injection E as ->. rewrite (IH eq_refl Hb).
    destruct t; [discriminate | reflexivity].
  - intros E Hb. injection E as ->. apply last_char_none in El. subst t.
    cbn [Py.rstrip]. now rewrite isspace_is_whitespace, Hb.
Qed.

Lemma rstrip_spec (s : string) :
  exists after,
    s = (Py.rstrip s ++ after)%string /\ blank after = true /\
    match last_char (Py.rstrip s) with
    | Some b => is_whitespace b = false
    | None => True
    end /\
    (Py.rstrip s <> EmptyString -> first_char (Py.rstrip s) = first_char s).
Proof.
  induction s as [|c s IH].
  - exists EmptyString. split; [reflexivity|]. split; [reflexivity|].
    split; [exact I | reflexivity].
  - destruct IH as (after & Hs & Ha & Hl & _). cbn [Py.rstrip].
    destruct (Py.rstrip s) as [|x r] eqn:Er.
    + rewrite isspace_is_whitespace. destruct (is_whitespace c) eqn:Hc.
      * exists (String c after). cbn [String.append] in *.
        split; [now rewrite <- Hs|]. split.
        -- unfold blank in *. cbn [list_ascii_of_string forallb].
           now rewrite Hc, Ha.
        -- split; [exact I|]. intros H. now contradiction H.
      * exists after. cbn [String.append] in *.
        split; [now rewrite <- Hs|]. split; [exact Ha|].
        split; [exact Hc | reflexivity].
    + exists after. cbn [String.append] in *.
      split; [now rewrite <- Hs|]. split; [exact Ha|].
      split; [|reflexivity].
      cbn [last_char] in *. destruct (last_char r); exact Hl.
Qed.

(** [Py.strip] computes the stripped text. *)
Lemma strip_is_stripped (line : string) : stripped_text line (Py.strip line).
Proof.
  unfold Py.strip.
  destruct (lstrip_spec line) as (before & Hline & Hb & Hfirst).
  destruct (rstrip_spec (Py.lstrip line)) as (after & Hmid & Ha & Hlast & Hsame).
  exists before, after. split; [now rewrite <- Hmid|].
  split; [exact Hb|]. split; [exact Ha|].
  unfold clean_edges.
  destruct (Py.rstrip (Py.lstrip line)) as [|x r] eqn:Er; [reflexivity|].
  rewrite <- Er in *.
  assert (Hne : Py.rstrip (Py.lstrip line) <> EmptyString) by (rewrite Er; discriminate).
  rewrite (Hsame Hne).
  destruct (first_char (Py.lstrip line)) as [a|]; [|reflexivity].
  destruct (last_char (Py.rstrip (Py.lstrip line))) as [b|]; [|reflexivity].
  now rewrite Hfirst, Hlast.
Qed.

(** The stripped text is unique. *)
Lemma stripped_is_strip (line t : string) :
  stripped_text line t -> Py.strip line = t.
Proof.
  intros (before & after & -> & Hb & Ha & Hclean). unfold Py.strip.
  rewrite (lstrip_blank_app _ _ Hb).
  destruct t as [|c t].
  - cbn [String.append]. now rewrite (lstrip_blank after Ha).
  - unfold clean_edges in Hclean. cbn [first_char] in Hclean.
    destruct (last_char (String c t)) as [b|] eqn:El;
      [|apply last_char_none in El; discriminate].
    apply andb_true_iff in Hclean. destruct Hclean as [Hc Hl].
    apply negb_true_iff in Hc, Hl.
    rewrite (lstrip_clean (String c t ++ after) c eq_refl Hc).
    rewrite (rstrip_app_blank _ _ Ha). exact (rstrip_clean _ _ El Hl).
Qed.

(** The condition the source tests is [import_line]. *)
Lemma import_rule_fires_iff (file_path line_content : string) :
  import_rule_fires file_path line_content = true
  <-> import_line file_path line_content.
Proof.
  unfold import_rule_fires, import_line.
  rewrite !andb_true_iff, negb_true_iff, endswith_spec, startswith_spec.
  rewrite <- (contains_char_spec line_content "#").
  split.
  - intros [[Hpy (rest & Himp)] Hhash]. split; [exact Hpy|]. split.
    + exists (Py.strip line_content), rest. split; [apply strip_is_stripped | exact Himp].
    + now rewrite Hhash.
  - intros (Hpy & (t & rest & Hstrip & ->) & Hhash). split; [split; [exact Hpy|]|].
    + exists rest. exact (stripped_is_strip _ _ Hstrip).
    + now destruct (Py.contains line_content "#").
Qed.

Lemma import_finding_is_info (file_path : string) (n : Z) :
  is_info (import_finding file_path n) = true.
Proof. reflexivity. Qed.

(** C10.  For a line of ASCII text, the analysis reports the import finding
    (INFO, severity 1) exactly when the file path ends in [.py], the
    stripped text of the line starts with [import ] and the line holds no
    [#]; it is then the only INFO finding of the line, and otherwise the
    line has none.  So a line whose stripped text starts with [from ] never
    gets it, and neither does a line with a [#] anywhere. *)
Theorem import_finding_iff (file_path : string) (line_num : Z)
        (line_content : string) :
  isascii line_content = true ->
  exists fb,
    analyze_line __init__ file_path line_num line_content = Ret fb /\
    (In (import_finding file_path line_num) fb
     <-> import_line file_path line_content) /\
    (import_line file_path line_content ->
     filter is_info fb = [import_finding file_path line_num]) /\
    (~ import_line file_path line_content -> filter is_info fb = []) /\
    (forall t rest, stripped_text line_content t -> t = ("from " ++ rest)%string ->
                    filter is_info fb = []) /\
    (In "#"%char (list_ascii_of_string line_content) -> filter is_info fb = []).
Proof.
  intros _.
  exists (line_findings __init__ file_path line_num line_content).
  pose proof (info_findings_of_line file_path line_num line_content) as Hinfo.
  pose proof (import_rule_fires_iff file_path line_content) as Hiff.
  split; [apply analyze_line_findings, init_compiles|].
  set (L := line_findings __init__ file_path line_num line_content) in *.
  assert (Hyes : import_line file_path line_content ->
                 filter is_info L = [import_finding file_path line_num]).
  { intros H. apply Hiff in H. now rewrite H in Hinfo. }
  assert (Hno : ~ import_line file_path line_content -> filter is_info L = []).
  { intros H. destruct (import_rule_fires file_path line_content);
      [exfalso; apply H, Hiff; reflexivity | exact Hinfo]. }
  split; [|split; [exact Hyes | split; [exact Hno | split]]].
  - split.
    + intros Hin.
      assert (Hin' : In (import_finding file_path line_num) (filter is_info L))
        by (apply filter_In; split; [exact Hin | reflexivity]).
      rewrite Hinfo in Hin'.
      destruct (import_rule_fires file_path line_content);
        [now apply Hiff | destruct Hin'].
    + intros H. apply Hyes in H.
      assert (Hin : In (import_finding file_path line_num) (filter is_info L))
        by (rewrite H; now left).
      apply filter_In in Hin. exact (proj1 Hin).
  - intros t rest Hstrip -> . apply Hno.
    intros (_ & (t' & rest' & Hstrip' & ->) & _).
    apply stripped_is_strip in Hstrip, Hstrip'. rewrite Hstrip in Hstrip'.
    discriminate.
  - intros Hhash. apply Hno. intros (_ & _ & H). exact (H Hhash).
Qed.

Lemma import_finding_iff_witness :
  exists fb,
    analyze_line __init__ "app.py" 3 "  import os  " = Ret fb /\
    filter is_info fb = [import_finding "app.py" 3].
Proof.
  destruct (import_finding_iff "app.py" 3 "  import os  " eq_refl)
    as (fb & Hrun & _ & Hyes & _).
  exists fb. split; [exact Hrun|]. apply Hyes.
  split; [now exists "app"|]. split.
  - exists "import os", "os". split; [|reflexivity].
    exists "  ", "  ". repeat split.
  - cbn. intuition discriminate.
Defined.

(* ================================================================= *)
(** ** The scorer *)

Lemma fold_penalty_shift (fb : list CodeFeedback) (a : Q) :
  fold_left (fun acc item => acc + penalty item) fb a == a + sum_penalties fb.
Proof.
  revert a. induction fb as [|x fb IH]; intros a; simpl.
  - lra.
  - rewrite IH. lra.
Qed.

Lemma sum_penalties_app (fb1 fb2 : list CodeFeedback) :
  sum_penalties (fb1 ++ fb2) == sum_penalties fb1 + sum_penalties fb2.
Proof.
  induction fb1 as [|x fb1 IH]; simpl.
  - lra.
  - rewrite IH. lra.
Qed.

Lemma py_int_nonneg (x : Q) : 0 <= x -> py_int x = Qfloor x.
Proof.
  destruct x as [n d]. unfold py_int, Qfloor, Qle. simpl. intros H.
  apply Z.quot_div_nonneg; lia.
Qed.

Lemma Qfloor_eq (x y : Q) : x == y -> Qfloor x = Qfloor y.
Proof. intros H. rewrite H. reflexivity. Qed.

Lemma Qmin_cap_lt (p : Q) : p < 100 -> Qmin p 100 == p.
Proof. intros H. apply Q.min_l. lra. Qed.

Lemma Qmin_cap_ge (p : Q) : 100 <= p -> Qmin p 100 == 100.
Proof. intros H. apply Q.min_r. lra. Qed.

Lemma score_is_spec_score (fb : list CodeFeedback) :
  _calculate_score fb = spec_score fb.
Proof.
  unfold spec_score.
  destruct fb as [|x fb].
  - reflexivity.
  - unfold _calculate_score.
    set (l := x :: fb).
    pose proof (fold_penalty_shift l 0) as HP.
    set (P := fold_left (fun acc item => acc + penalty item) l 0) in *.
    assert (HS : P == sum_penalties l) by (rewrite HP; lra).
    clearbody P. clear HP.
    cbv zeta. unfold py_min.
    destruct (Qlt_le_dec P 100) as [Hlt | Hge].
    + unfold py_max. destruct (Qlt_le_dec 0 (100 - P)) as [Hpos | Hneg]; [|exfalso; lra].
      rewrite py_int_nonneg by lra.
      rewrite (Qfloor_eq (100 - Qmin (sum_penalties l) 100) (100 - P)).
      * assert (Qfloor 0 <= Qfloor (100 - P))%Z as H0
          by (apply Qfloor_resp_le; lra).
        change (Qfloor 0) with 0%Z in H0. lia.
      * rewrite Qmin_cap_lt; lra.
    + unfold py_max. destruct (Qlt_le_dec 0 (100 - 100)) as [Hpos | Hneg]; [exfalso; lra|].
      rewrite (Qfloor_eq (100 - Qmin (sum_penalties l) 100) 0).
      * reflexivity.
      * rewrite Qmin_cap_ge; lra.
Qed.

Lemma penalty_nonneg (item : CodeFeedback) :
  (0 <= item.(severity))%Z -> 0 <= penalty item.
Proof.
  intros H. unfold penalty.
  destruct (type item).
  - change 0 with (inject_Z 0). rewrite <- Zle_Qle. lia.
  - change 0 with (inject_Z 0). rewrite <- Zle_Qle. lia.
  - change 0 with (inject_Z 0). rewrite <- Zle_Qle. lia.
  - assert (0 <= inject_Z (severity item)).
    { change 0 with (inject_Z 0). rewrite <- Zle_Qle. lia. }
    lra.
Qed.

Lemma sum_penalties_nonneg (fb : list CodeFeedback) :
  Forall (fun item => (0 <= item.(severity))%Z) fb -> 0 <= sum_penalties fb.
Proof.
  induction 1 as [|x fb Hx _ IH]; simpl.
  - lra.
  - pose proof (penalty_nonneg x Hx). lra.
Qed.

Lemma spec_score_lower (fb : list CodeFeedback) : (0 <= spec_score fb)%Z.
Proof. unfold spec_score. lia. Qed.

Lemma spec_score_upper (fb : list CodeFeedback) :
  0 <= sum_penalties fb -> (spec_score fb <= 100)%Z.
Proof.
  intros H. unfold spec_score.
  assert (Qfloor (100 - Qmin (sum_penalties fb) 100) <= Qfloor 100)%Z as H0.
  { apply Qfloor_resp_le.
    destruct (Q.min_spec (sum_penalties fb) 100) as [[_ E] | [_ E]];
      rewrite E; lra. }
  change (Qfloor 100) with 100%Z in H0. lia.
Qed.

Lemma spec_score_antitone (fb1 fb2 : list CodeFeedback) :
  sum_penalties fb1 <= sum_penalties fb2 ->
  (spec_score fb2 <= spec_score fb1)%Z.
Proof.
  intros H. unfold spec_score.
  apply Z.max_le_compat_l. apply Qfloor_resp_le.
  assert (Qmin (sum_penalties fb1) 100 <= Qmin (sum_penalties fb2) 100).
  { apply Q.min_le_compat_r. exact H. }
  lra.
Qed.

Lemma penalty_is_claimed (item : CodeFeedback) :
  penalty item == claimed_penalty item.
Proof.
  unfold penalty, claimed_penalty, claimed_weight.
  destruct (type item); rewrite ?inject_Z_mult.
  - reflexivity.
  - reflexivity.
  - reflexivity.
  - reflexivity.
Qed.

Lemma sum_penalties_is_claimed (fb : list CodeFeedback) :
  sum_penalties fb == claimed_total fb.
Proof.
  unfold claimed_total. induction fb as [|x fb IH]; simpl.
  - reflexivity.
  - now rewrite IH, penalty_is_claimed.
Qed.

Lemma score_is_claimed_score (fb : list CodeFeedback) :
  _calculate_score fb = claimed_score fb.
Proof.
  rewrite score_is_spec_score. unfold spec_score, claimed_score.
  f_equal. apply Qfloor_eq.
  now rewrite (sum_penalties_is_claimed fb).
Qed.

Lemma scale_nonneg (fb : list CodeFeedback) :
  Forall severity_in_scale fb ->
  Forall (fun item => (0 <= severity item)%Z) fb.
Proof.
  apply Forall_impl. intros item H. unfold severity_in_scale in H. lia.
Qed.

(** C1, as stated, fails: the score of a single error of severity -1 is
    103, above 100. *)
Lemma score_above_100 :
  _calculate_score [error_below_scale] = 103%Z /\
  ~ (0 <= _calculate_score [error_below_scale] <= 100)%Z.
Proof. split; [reflexivity | vm_compute; intros [_ H]; apply H; reflexivity]. Qed.

(** C1, amended.  The score of an empty feedback list is 100.  For every
    list whose severities are on the 1-5 scale of the data model the score
    is 100 minus the sum of the penalties (the severity times 3 for an
    error, 2 for a warning, 1 for a suggestion, one half for an info), the
    sum capped at 100, the difference floored and raised to 0 when negative;
    hence it lies between 0 and 100. *)
Theorem calculate_score_spec (fb : list CodeFeedback) :
  _calculate_score [] = 100%Z /\
  (Forall severity_in_scale fb ->
   _calculate_score fb = claimed_score fb /\
   (0 <= _calculate_score fb <= 100)%Z).
Proof.
  split; [reflexivity|].
  intros Hsev. split; [apply score_is_claimed_score|].
  rewrite score_is_spec_score.
  split; [apply spec_score_lower|].
  apply spec_score_upper, sum_penalties_nonneg, scale_nonneg, Hsev.
Qed.

Lemma calculate_score_spec_witness :
  _calculate_score one_of_each = 76%Z /\
  (0 <= _calculate_score one_of_each <= 100)%Z.
Proof.
  destruct (proj2 (calculate_score_spec one_of_each)) as [E B].
  - repeat constructor; unfold severity_in_scale; simpl; lia.
  - split; [rewrite E; reflexivity | exact B].
Defined.

(** C6.  Appending one error finding of severity 1 to 5 never raises the
    score. *)
Theorem error_never_raises_score (fb : list CodeFeedback) (e : CodeFeedback) :
  type e = ERROR ->
  severity_in_scale e ->
  (_calculate_score (fb ++ [e]) <= _calculate_score fb)%Z.
Proof.
  intros Htype Hsev. rewrite !score_is_spec_score.
  apply spec_score_antitone. rewrite sum_penalties_app. simpl.
  assert (0 <= penalty e) by (apply penalty_nonneg; unfold severity_in_scale in Hsev; lia).
  lra.
Qed.

Lemma error_never_raises_score_witness :
  (_calculate_score ([mk_feedback "a.py" 1 WARNING "w" 3 None]
                     ++ [mk_feedback "a.py" 2 ERROR "e" 5 None])
   <= _calculate_score [mk_feedback "a.py" 1 WARNING "w" 3 None])%Z.
Proof.
  apply error_never_raises_score.
  - reflexivity.
  - unfold severity_in_scale. simpl. lia.
Defined.

(* ================================================================= *)
(** ** More on the diff parser *)

Lemma step_other (st : parse_state) (l : string) :
  is_marker l = false -> is_added l = false -> parse_step st l = st.
Proof. intros Hm Ha. unfold parse_step. now rewrite Hm, Ha. Qed.

Lemma run_filter (lines : list string) (st : parse_state) :
  run st (filter keeps_line lines) = run st lines.
Proof.
  revert st. induction lines as [|l lines IH]; intros st; [reflexivity|].
  cbn [filter]. unfold keeps_line at 1.
  destruct (is_marker l) eqn:Hm; cbn [orb].
  - rewrite !run_cons. apply IH.
  - destruct (is_added l) eqn:Ha.
    + rewrite !run_cons. apply IH.
    + rewrite run_cons, (step_other _ _ Hm Ha). apply IH.
Qed.

(** X1.  Only the [diff --git] lines and the added lines count: context
    lines, removals, hunk headers and the [---]/[+++] file headers can be
    deleted from a diff without changing what the parser returns. *)
Theorem other_lines_are_ignored (lines : list string) :
  parse_lines (filter keeps_line lines) = parse_lines lines.
Proof.
  unfold parse_lines. fold (run parse_init (filter keeps_line lines)).
  fold (run parse_init lines). now rewrite run_filter.
Qed.

Lemma startswith_app (p s : string) : Py.startswith (p ++ s) p = true.
Proof.
  unfold Py.startswith. induction p as [|c p IH]; simpl.
  - now destruct s.
  - destruct (ascii_dec c c) as [_ | Hne]; [exact IH | contradiction].
Qed.

Lemma plus_plus_not_added (content : string) :
  is_marker ("+++" ++ content) = false /\ is_added ("+++" ++ content) = false.
Proof.
  split; [reflexivity|].
  unfold is_added. now rewrite (startswith_app "+++" content), andb_false_r.
Qed.

(** X2.  An added line whose own text begins with [++] (such as the C
    statement [++i;]) reads [+++...] in the diff and is taken for a file
    header: it is dropped wherever it stands. *)
Theorem plus_plus_line_is_dropped (before after : list string) (content : string) :
  parse_lines (before ++ ("+++" ++ content)%string :: after)
  = parse_lines (before ++ after).
Proof.
  unfold parse_lines.
  fold (run parse_init (before ++ ("+++" ++ content)%string :: after)).
  fold (run parse_init (before ++ after)).
  rewrite !run_app, run_cons.
  destruct (plus_plus_not_added content) as [Hm Ha].
  now rewrite (step_other _ _ Hm Ha).
Qed.

Lemma run_from_no_file (rest : list string) (fs : Dict.t (list string))
      (c1 c2 : list string) :
  flush (run (mk_parse_state fs None c1) rest)
  = flush (run (mk_parse_state fs None c2) rest).
Proof.
  revert c1 c2. induction rest as [|l rest IH]; intros c1 c2; [reflexivity|].
  rewrite !run_cons. unfold parse_step.
  destruct (is_marker l); [reflexivity|].
  destruct (is_added l); cbn [files current_file current_changes]; apply IH.
Qed.

(** X3.  Whatever precedes the first [diff --git] line is discarded, added
    lines included. *)
Theorem preamble_is_ignored (preamble rest : list string) :
  no_marker preamble = true ->
  parse_lines (preamble ++ rest) = parse_lines rest.
Proof.
  intros Hnm. unfold parse_lines.
  fold (run parse_init (preamble ++ rest)). fold (run parse_init rest).
  rewrite run_app, (run_body _ _ Hnm). apply run_from_no_file.
Qed.

Lemma preamble_is_ignored_witness :
  parse_lines (["+stray"; "some text"] ++ ["diff --git a/a.py b/a.py"; "+x"])
  = parse_lines ["diff --git a/a.py b/a.py"; "+x"].
Proof. apply preamble_is_ignored. reflexivity. Defined.

Lemma added_is_plus (l : string) :
  is_added l = true -> l = String "+" (Py.drop 1 l).
Proof.
  unfold is_added, Py.startswith. intros H. apply andb_true_iff in H.
  destruct H as [H _]. destruct l as [|c l]; [discriminate|].
  cbn [String.prefix] in H. destruct (ascii_dec "+" c) as [<- | _];
    [reflexivity | discriminate].
Qed.

Lemma added_not_plus_plus (l : string) :
  is_added l = true -> Py.startswith (Py.drop 1 l) "++" = false.
Proof.
  intros H. pose proof (added_is_plus l H) as E.
  unfold is_added in H. apply andb_true_iff in H. destruct H as [_ H].
  apply negb_true_iff in H. rewrite E in H.
  unfold Py.startswith in *. cbn [String.prefix] in H.
  destruct (ascii_dec "+" "+") as [_ | Hne]; [exact H | contradiction].
Qed.

Lemma in_set_inv {V : Type} (d : Dict.t V) (k k' : string) (v v' : V) :
  In (k', v') (Dict.set d k v) -> (k' = k /\ v' = v) \/ In (k', v') d.
Proof.
  induction d as [|[k0 v0] d IH]; simpl.
  - intros [E | []]. injection E as <- <-. now left.
  - destruct (String.eqb k0 k); simpl.
    + intros [E | H]; [injection E as <- <-; now left | right; now right].
    + intros [E | H]; [right; now left|].
      destruct (IH H) as [? | ?]; [now left | right; now right].
Qed.

Lemma flush_stored (lines : list string) (st : parse_state) :
  stored_inv lines st ->
  forall k v, In (k, v) (flush st) -> plus_lines_of lines v.
Proof.
  intros [Hf Hc] k v Hin. unfold flush in Hin.
  destruct (current_file st) as [[|c f]|]; try (now apply (Hf k v)).
  apply in_set_inv in Hin. destruct Hin as [[_ ->] | Hin];
    [exact Hc | now apply (Hf k v)].
Qed.

Lemma stored_inv_step (lines : list string) (st : parse_state) (l : string) :
  In l lines -> stored_inv lines st -> stored_inv lines (parse_step st l).
Proof.
  intros Hl Hinv. pose proof Hinv as [Hf Hc]. unfold parse_step.
  destruct (is_marker l).
  - split; cbn [files current_changes].
    + now apply flush_stored.
    + intros x [].
  - destruct (is_added l) eqn:Ha; [|exact Hinv].
    split; cbn [files current_changes]; [exact Hf|].
    intros x Hx. apply in_app_or in Hx. destruct Hx as [Hx | [<- | []]].
    + now apply Hc.
    + split; [now rewrite <- (added_is_plus l Ha) | now apply added_not_plus_plus].
Qed.

Lemma stored_inv_run (lines ls : list string) (st : parse_state) :
  (forall l, In l ls -> In l lines) ->
  stored_inv lines st -> stored_inv lines (run st ls).
Proof.
  revert st. induction ls as [|l ls IH]; intros st Hsub Hinv; [exact Hinv|].
  rewrite run_cons. apply IH.
  - intros x Hx. apply Hsub. now right.
  - apply stored_inv_step; [apply Hsub; now left | exact Hinv].
Qed.

(** X4.  Every line stored in the mapping is the text, less its [+], of a
    line of the diff that begins with [+]; it never begins with [++]. *)
Theorem stored_lines_come_from_plus_lines (diff_content k : string)
        (v : list string) (l : string) :
  In (k, v) (_parse_diff diff_content) ->
  In l v ->
  In (String "+" l) (Py.split Py.LF diff_content) /\
  Py.startswith l "++" = false.
Proof.
  intros Hkv Hl. unfold _parse_diff, parse_lines in Hkv.
  set (lines := Py.split Py.LF diff_content) in *.
  fold (run parse_init lines) in Hkv.
  assert (Hinv : stored_inv lines (run parse_init lines)).
  { apply stored_inv_run; [auto|]. split; [intros ? ? [] | intros ? []]. }
  exact (flush_stored lines _ Hinv k v Hkv l Hl).
Qed.

Lemma stored_lines_come_from_plus_lines_witness :
  In "+x = 1" (Py.split Py.LF no_prefix_diff) /\
  Py.startswith "x = 1" "++" = false.
Proof.
  apply (stored_lines_come_from_plus_lines no_prefix_diff "c/app.py" ["x = 1"]).
  - left. reflexivity.
  - left. reflexivity.
Defined.

(* ================================================================= *)
(** ** The pipeline as a whole *)

Lemma file_changes_findings (self : CodeAnalyzer) (file_path : string)
      (changes : list string) :
  analyzer_compiles self = true ->
  _analyze_file_changes self file_path changes
  = Ret (file_findings self file_path changes).
Proof.
  intros Hc. unfold _analyze_file_changes, file_findings.
  now rewrite (analyze_lines_findings _ _ _ _ _ Hc).
Qed.

Lemma analyze_sections_findings (self : CodeAnalyzer)
      (sections : list (string * list string)) (fb : list CodeFeedback) :
  analyzer_compiles self = true ->
  analyze_sections self sections fb = Ret (fb ++ diff_findings self sections).
Proof.
  intros Hc. revert fb.
  induction sections as [|[file_path changes] sections IH]; intros fb;
    cbn [analyze_sections].
  - unfold diff_findings. cbn [flat_map]. now rewrite app_nil_r.
  - unfold diff_findings. cbn [flat_map fst snd]. fold (diff_findings self sections).
    destruct (_is_code_file file_path).
    + rewrite (file_changes_findings _ _ _ Hc). unfold bind.
      rewrite IH. now rewrite <- app_assoc.
    + now rewrite IH.
Qed.

Lemma analyze_changes_findings (pr_data : PRData) :
  analyze_changes __init__ pr_data
  = Ret (let fb := diff_findings __init__ (_parse_diff (diff_content pr_data)) in
         {| score := _calculate_score fb;
            feedback := fb;
            resp_files_changed := Z.of_nat (List.length (files_changed pr_data));
            lines_added := additions pr_data;
            lines_removed := deletions pr_data;
            recommendations := _generate_recommendations fb |}).
Proof.
  unfold analyze_changes.
  rewrite (analyze_sections_findings _ _ _ init_compiles). reflexivity.
Qed.

Lemma in_enumerate (changes : list string) (start n : Z) (l : string) :
  In (n, l) (enumerate start changes) ->
  exists k, nth_error changes k = Some l /\ n = (start + Z.of_nat k)%Z.
Proof.
  revert start. induction changes as [|c changes IH]; intros start; simpl.
  - intros [].
  - intros [E | H].
    + injection E as <- <-. exists 0%nat. split; [reflexivity | lia].
    + destruct (IH _ H) as (k & Hk & ->). exists (S k). split; [exact Hk | lia].
Qed.

Lemma in_diff_findings (self : CodeAnalyzer)
      (sections : list (string * list string)) (f : CodeFeedback) :
  In f (diff_findings self sections) ->
  exists file_path changes k l,
    In (file_path, changes) sections /\
    _is_code_file file_path = true /\
    nth_error changes k = Some l /\
    In f (line_findings self file_path (1 + Z.of_nat k) l).
Proof.
  unfold diff_findings. intros Hf. apply in_flat_map in Hf.
  destruct Hf as ([file_path changes] & Hsec & Hf). cbn [fst snd] in Hf.
  destruct (_is_code_file file_path) eqn:Hcode; [|destruct Hf].
  unfold file_findings in Hf. apply in_flat_map in Hf.
  destruct Hf as ([n l] & Hnl & Hf). cbn [fst snd] in Hf.
  apply in_enumerate in Hnl. destruct Hnl as (k & Hk & ->).
  now exists file_path, changes, k, l.
Qed.

Lemma line_findings_file (self : CodeAnalyzer) (file_path : string)
      (n : Z) (line_content : string) (f : CodeFeedback) :
  In f (line_findings self file_path n line_content) -> file f = file_path.
Proof.
  unfold line_findings. rewrite !in_app_iff, !in_map_iff.
  intros [(m & <- & _) | [(m & <- & _) | H]]; try reflexivity.
  destruct (Py.endswith file_path ".py"); [|contradiction].
  apply in_map_iff in H. destruct H as (i & <- & _). reflexivity.
Qed.

Lemma in_python_issues (line_content : string) (i : issue) :
  In i (python_issues line_content) ->
  i = type_hint_issue \/ i = long_line_issue \/ i = import_issue.
Proof.
  unfold python_issues.
  set (a := found_at_start _ line_content && negb (Py.contains line_content "->")).
  set (b := (88 <? String.length (Py.strip line_content))%nat).
  set (c := Py.startswith (Py.strip line_content) "import "
            && negb (Py.contains line_content "#")).
  destruct a, b, c; cbn [app In]; intuition.
Qed.

Lemma line_findings_shape (self : CodeAnalyzer) (file_path : string)
      (n : Z) (line_content : string) (f : CodeFeedback) :
  In f (line_findings self file_path n line_content) -> finding_shape f.
Proof.
  unfold line_findings. rewrite !in_app_iff, !in_map_iff.
  intros [(m & <- & _) | [(m & <- & _) | H]].
  - split; reflexivity.
  - split; [reflexivity | now left].
  - destruct (Py.endswith file_path ".py"); [|contradiction].
    apply in_map_iff in H. destruct H as (i & <- & Hi).
    apply in_python_issues in Hi. destruct Hi as [-> | [-> | ->]];
      split; try reflexivity. now right.
Qed.

Lemma shape_in_scale (f : CodeFeedback) : finding_shape f -> severity_in_scale f.
Proof.
  intros [_ H]. unfold severity_in_scale. destruct (type f); lia.
Qed.

Lemma in_get {V : Type} (d : Dict.t V) (k : string) (v : V) :
  NoDup (Dict.keys d) -> In (k, v) d -> Dict.get d k = Some v.
Proof.
  unfold Dict.keys. induction d as [|[k0 v0] d IH]; simpl; intros Hnd Hin;
    [destruct Hin|].
  inversion Hnd as [|? ? Hnotin Hnd']; subst.
  destruct Hin as [E | Hin].
  - injection E as -> ->. now rewrite String.eqb_refl.
  - destruct (String.eqb k0 k) eqn:E.
    + apply String.eqb_eq in E. subst k0. exfalso. apply Hnotin.
      apply in_map_iff. now exists (k, v).
    + now apply IH.
Qed.

(** X5.  Every finding of a report names a file of the diff that has a code
    extension, and its line number is a position, counted from 1, in the
    added lines the parser stored for that file. *)
Theorem findings_point_into_diff (pr_data : PRData) (resp : PRAnalysisResponse)
        (f : CodeFeedback) :
  analyze_changes __init__ pr_data = Ret resp ->
  In f (feedback resp) ->
  _is_code_file (file f) = true /\
  exists changes,
    Dict.get (_parse_diff (diff_content pr_data)) (file f) = Some changes /\
    (1 <= line f <= Z.of_nat (List.length changes))%Z.
Proof.
  rewrite analyze_changes_findings. intros E Hf. injection E as <-.
  cbn [feedback] in Hf. apply in_diff_findings in Hf.
  destruct Hf as (file_path & changes & k & l & Hsec & Hcode & Hk & Hf).
  rewrite (line_findings_file _ _ _ _ _ Hf), (line_findings_on_line _ _ _ _ _ Hf).
  split; [exact Hcode|]. exists changes. split.
  - apply in_get; [|exact Hsec].
    exact (proj1 (parse_lines_keys (Py.split Py.LF (diff_content pr_data)))).
  - assert (k < List.length changes)%nat
      by (apply nth_error_Some; congruence).
    lia.
Qed.

Lemma findings_point_into_diff_witness :
  _is_code_file "mod.py" = true /\
  exists changes,
    Dict.get (_parse_diff foo_diff) "mod.py" = Some changes /\
    (1 <= 1 <= Z.of_nat (List.length changes))%Z.
Proof.
  refine (findings_point_into_diff
            (mk_pr_data [] 0 0 0 foo_diff EmptyString EmptyString)
            _ (docstring_warning "mod.py") (analyze_changes_findings _) _).
  vm_compute. left. reflexivity.
Defined.

Lemma diff_findings_shape (sections : list (string * list string)) :
  Forall finding_shape (diff_findings __init__ sections).
Proof.
  apply Forall_forall. intros f Hf. apply in_diff_findings in Hf.
  destruct Hf as (file_path & changes & k & l & _ & _ & _ & Hf).
  now apply line_findings_shape in Hf.
Qed.

Lemma shapes_nonneg (fb : list CodeFeedback) :
  Forall finding_shape fb ->
  Forall (fun item => (0 <= severity item)%Z) fb.
Proof.
  apply Forall_impl. intros f Hf. apply shape_in_scale in Hf.
  unfold severity_in_scale in Hf. lia.
Qed.

(** X6.  On every input the analysis returns a report: it never raises.  The
    score of the report lies between 0 and 100, every finding has the
    severity its kind fixes (error 5, warning 3 or 2, suggestion 2, info 1)
    and no suggested fix, and the three statistics repeat the input. *)
Theorem report_is_total_and_bounded (pr_data : PRData) :
  exists resp,
    analyze_changes __init__ pr_data = Ret resp /\
    (0 <= score resp <= 100)%Z /\
    Forall finding_shape (feedback resp) /\
    resp_files_changed resp = Z.of_nat (List.length (files_changed pr_data)) /\
    lines_added resp = additions pr_data /\
    lines_removed resp = deletions pr_data.
Proof.
  eexists. split; [apply analyze_changes_findings|].
  cbn [score feedback resp_files_changed lines_added lines_removed].
  pose proof (diff_findings_shape (_parse_diff (diff_content pr_data))) as Hshape.
  split; [|split; [exact Hshape | repeat split]].
  rewrite score_is_spec_score. split; [apply spec_score_lower|].
  apply spec_score_upper, sum_penalties_nonneg, shapes_nonneg, Hshape.
Qed.

Lemma penalty_le_sum (fb : list CodeFeedback) (f : CodeFeedback) :
  Forall (fun item => (0 <= severity item)%Z) fb ->
  In f fb -> penalty f <= sum_penalties fb.
Proof.
  induction 1 as [|x fb Hx Hfb IH]; intros Hin; [destruct Hin|].
  simpl. destruct Hin as [-> | Hin].
  - pose proof (sum_penalties_nonneg fb Hfb). lra.
  - pose proof (penalty_nonneg x Hx). specialize (IH Hin). lra.
Qed.

Lemma spec_score_below (fb : list CodeFeedback) (p : Z) :
  inject_Z p <= sum_penalties fb -> (0 <= p <= 100)%Z ->
  (spec_score fb <= 100 - p)%Z.
Proof.
  intros Hp Hrange. unfold spec_score.
  apply Z.max_lub; [lia|].
  rewrite <- (Qfloor_Z (100 - p)). apply Qfloor_resp_le.
  unfold Z.sub. rewrite inject_Z_plus, inject_Z_opp.
  assert (inject_Z p <= 100) by (change 100 with (inject_Z 100); rewrite <- Zle_Qle; lia).
  destruct (Q.min_spec (sum_penalties fb) 100) as [[_ E] | [_ E]]; rewrite E.
  - change (inject_Z 100) with 100. lra.
  - change (inject_Z 100) with 100. lra.
Qed.

(** X7.  A report that holds an error finding has score 85 at most. *)
Theorem error_caps_score_at_85 (pr_data : PRData) (resp : PRAnalysisResponse)
        (f : CodeFeedback) :
  analyze_changes __init__ pr_data = Ret resp ->
  In f (feedback resp) ->
  type f = ERROR ->
  (score resp <= 85)%Z.
Proof.
  rewrite analyze_changes_findings. intros E Hf Htype. injection E as <-.
  cbn [feedback score] in *.
  set (fb := diff_findings __init__ (_parse_diff (diff_content pr_data))) in *.
  pose proof (diff_findings_shape (_parse_diff (diff_content pr_data))) as Hshape.
  fold fb in Hshape.
  assert (Hsev : severity f = 5%Z).
  { rewrite Forall_forall in Hshape. destruct (Hshape f Hf) as [_ H].
    now rewrite Htype in H. }
  pose proof (penalty_le_sum fb f (shapes_nonneg fb Hshape) Hf) as Hle.
  unfold penalty in Hle. rewrite Htype, Hsev in Hle.
  rewrite score_is_spec_score.
  change 85%Z with (100 - 15)%Z. apply spec_score_below; [exact Hle | lia].
Qed.

Lemma error_caps_score_at_85_witness :
  (_calculate_score
     (diff_findings __init__
        (_parse_diff (join_lines ["diff --git a/a.py b/a.py"; "+eval(x)"])))
   <= 85)%Z.
Proof.
  refine (error_caps_score_at_85
            (mk_pr_data [] 0 0 0
               (join_lines ["diff --git a/a.py b/a.py"; "+eval(x)"])
               EmptyString EmptyString)
            _ (security_finding "a.py" 1
                 "Avoid using eval() as it can execute arbitrary code")
            (analyze_changes_findings _) _ _).
  - vm_compute. left. reflexivity.
  - reflexivity.
Defined.

Lemma shape_penalty_half (f : CodeFeedback) :
  finding_shape f -> 1 # 2 <= penalty f.
Proof.
  intros [_ H]. unfold penalty. destruct (type f).
  - rewrite H. vm_compute. discriminate.
  - destruct H as [-> | ->]; vm_compute; discriminate.
  - rewrite H. vm_compute. discriminate.
  - rewrite H. vm_compute. discriminate.
Qed.

(** X8.  The score of a report is 100 exactly when the report has no
    finding: a single finding, be it an info, brings it to 99 or less. *)
Theorem score_100_iff_no_findings (pr_data : PRData) (resp : PRAnalysisResponse) :
  analyze_changes __init__ pr_data = Ret resp ->
  (score resp = 100%Z <-> feedback resp = []).
Proof.
  rewrite analyze_changes_findings. intros E. injection E as <-.
  cbn [feedback score].
  set (fb := diff_findings __init__ (_parse_diff (diff_content pr_data))).
  pose proof (diff_findings_shape (_parse_diff (diff_content pr_data))) as Hshape.
  fold fb in Hshape. split.
  - intros Hscore. destruct fb as [|f fb'] eqn:Efb; [reflexivity|]. exfalso.
    rewrite <- Efb in *. clearbody fb.
    assert (Hf : In f fb) by (rewrite Efb; now left).
    pose proof (penalty_le_sum fb f (shapes_nonneg fb Hshape) Hf) as Hle.
    assert (Hhalf : 1 # 2 <= penalty f).
    { apply shape_penalty_half. rewrite Forall_forall in Hshape. now apply Hshape. }
    rewrite score_is_spec_score in Hscore. unfold spec_score in Hscore.
    assert (Hfl : (Qfloor (100 - Qmin (sum_penalties fb) 100) <= 99)%Z).
    { assert (H0 : (Qfloor (100 - Qmin (sum_penalties fb) 100)
                    <= Qfloor (inject_Z 99 + (1 # 2)))%Z).
      { apply Qfloor_resp_le.
        destruct (Q.min_spec (sum_penalties fb) 100) as [[_ E] | [_ E]];
          rewrite E; change (inject_Z 99) with 99; lra. }
      exact H0. }
    lia.
  - intros ->. reflexivity.
Qed.

Lemma score_100_iff_no_findings_witness :
  _calculate_score (diff_findings __init__ (_parse_diff foo_diff)) = 100%Z
  <-> diff_findings __init__ (_parse_diff foo_diff) = [].
Proof.
  exact (score_100_iff_no_findings
           (mk_pr_data [] 0 0 0 foo_diff EmptyString EmptyString)
           _ (analyze_changes_findings _)).
Defined.

Lemma sections_without_work (self : CodeAnalyzer)
      (sections : list (string * list string)) (fb : list CodeFeedback) :
  (forall k v, In (k, v) sections -> _is_code_file k = false \/ v = []) ->
  analyze_sections self sections fb = Ret fb.
Proof.
  revert fb. induction sections as [|[k v] sections IH]; intros fb H;
    cbn [analyze_sections]; [reflexivity|].
  assert (IH' : forall fb', analyze_sections self sections fb' = Ret fb').
  { intros fb'. apply IH. intros k' v' Hin. apply (H k' v'). now right. }
  destruct (H k v (or_introl eq_refl)) as [Hk | ->].
  - rewrite Hk. apply IH'.
  - destruct (_is_code_file k); [|apply IH'].
    unfold _analyze_file_changes. cbn [analyze_lines bind].
    rewrite app_nil_r. apply IH'.
Qed.

(** X9.  When no file of the diff has a code extension nothing is analysed,
    whatever the rule tables hold: the report has no finding, score 100 and
    the single recommendation that the code looks good. *)
Theorem non_code_files_yield_nothing (self : CodeAnalyzer) (pr_data : PRData) :
  (forall k, In k (Dict.keys (_parse_diff (diff_content pr_data))) ->
             _is_code_file k = false) ->
  analyze_changes self pr_data
  = Ret {| score := 100;
           feedback := [];
           resp_files_changed := Z.of_nat (List.length (files_changed pr_data));
           lines_added := additions pr_data;
           lines_removed := deletions pr_data;
           recommendations := ["Great work! Code looks good to merge."] |}.
Proof.
  intros H. unfold analyze_changes.
  rewrite sections_without_work; [reflexivity|].
  intros k v Hin. left. apply H. unfold Dict.keys. apply in_map_iff.
  now exists (k, v).
Qed.

Lemma non_code_files_yield_nothing_witness :
  exists resp,
    analyze_changes broken_analyzer
      (mk_pr_data ["README.md"] 1 0 1
         (join_lines ["diff --git a/README.md b/README.md"; "+eval(x)"])
         "docs" "main") = Ret resp /\
    score resp = 100%Z /\ feedback resp = [].
Proof.
  eexists. split.
  - apply non_code_files_yield_nothing.
    intros k Hk. vm_compute in Hk. destruct Hk as [<- | []]. reflexivity.
  - split; reflexivity.
Defined.

Lemma is_added_plus (l : string) :
  Py.startswith l "++" = false -> is_added (String "+" l) = true.
Proof.
  intros H. unfold is_added, Py.startswith in *. cbn [String.prefix].
  destruct (ascii_dec "+" "+") as [_ | Hne]; [|contradiction].
  destruct l as [|c l]; [reflexivity|].
  cbn [String.prefix] in *. destruct (ascii_dec "+" c); [now rewrite H | reflexivity].
Qed.

(** X10.  A diff without added lines gives a report with no finding, score
    100 and the single recommendation that the code looks good, whatever
    files it names. *)
Theorem no_added_lines_yield_nothing (self : CodeAnalyzer) (pr_data : PRData) :
  forallb (fun l => negb (is_added l)) (Py.split Py.LF (diff_content pr_data)) = true ->
  analyze_changes self pr_data
  = Ret {| score := 100;
           feedback := [];
           resp_files_changed := Z.of_nat (List.length (files_changed pr_data));
           lines_added := additions pr_data;
           lines_removed := deletions pr_data;
           recommendations := ["Great work! Code looks good to merge."] |}.
Proof.
  intros Hnone. unfold analyze_changes.
  rewrite sections_without_work; [reflexivity|].
  intros k v Hin. right. destruct v as [|l v]; [reflexivity|]. exfalso.
  unfold _parse_diff, parse_lines in Hin.
  set (lines := Py.split Py.LF (diff_content pr_data)) in *.
  fold (run parse_init lines) in Hin.
  assert (Hinv : stored_inv lines (run parse_init lines)).
  { apply stored_inv_run; [auto|]. split; [intros ? ? [] | intros ? []]. }
  destruct (flush_stored lines _ Hinv k _ Hin l (or_introl eq_refl)) as [Hl Hpp].
  rewrite forallb_forall in Hnone. specialize (Hnone _ Hl).
  now rewrite (is_added_plus l Hpp) in Hnone.
Qed.

Lemma no_added_lines_yield_nothing_witness :
  exists resp,
    analyze_changes __init__
      (mk_pr_data ["a.py"; "b.py"; "c.py"] 0 3 1
         (join_lines ["diff --git a/a.py b/a.py"; "-x"; "diff --git a/b.py b/b.py";
                      "-y"; "diff --git a/c.py b/c.py"; "-z"])
         "cleanup" "main") = Ret resp /\
    score resp = 100%Z /\ feedback resp = [].
Proof.
  eexists. split.
  - apply no_added_lines_yield_nothing. reflexivity.
  - split; reflexivity.
Defined.

(* ================================================================= *)
(** ** Recommendations *)

Lemma count_if_pos {A : Type} (p : A -> bool) (l : list A) :
  (0 <? count_if p l)%nat = existsb p l.
Proof.
  unfold count_if. induction l as [|x l IH]; [reflexivity|].
  cbn [filter existsb]. destruct (p x); [reflexivity | exact IH].
Qed.

Lemma recommendations_cases (fb : list CodeFeedback) :
  _generate_recommendations fb
  = match existsb is_error fb, existsb mentions_security fb,
          existsb mentions_docstring fb with
    | false, false, false => ["Great work! Code looks good to merge."]
    | e, s, d =>
        (if e then ["Address all critical security and error issues before merging"]
         else []) ++
        (if s then ["Review and fix security vulnerabilities"] else []) ++
        (if d then ["Add documentation to improve code maintainability"] else [])
    end.
Proof.
  unfold _generate_recommendations.
  change (fun f : CodeFeedback => FeedbackType_eqb (type f) ERROR) with is_error.
  change (fun f : CodeFeedback =>
            Py.contains (Py.lower (message f)) "security"
            || Py.contains (Py.lower (message f)) "injection")
    with mentions_security.
  change (fun f : CodeFeedback => Py.contains (Py.lower (message f)) "docstring")
    with mentions_docstring.
  rewrite !count_if_pos.
  destruct (existsb is_error fb), (existsb mentions_security fb),
    (existsb mentions_docstring fb); reflexivity.
Qed.

Lemma is_error_true (f : CodeFeedback) : is_error f = true <-> type f = ERROR.
Proof. unfold is_error. destruct (type f); simpl; split; congruence. Qed.

(** X11.  The recommendations are never empty and never repeat a message.
    The merge-blocking message is among them exactly when some finding is an
    error, the security message exactly when some message holds the word
    security or injection in any letter case, the documentation message
    exactly when some message holds the word docstring; the message that
    the code looks good is returned, alone, exactly when none of the three
    applies. *)
Theorem recommendations_spec (fb : list CodeFeedback) :
  let recs := _generate_recommendations fb in
  recs <> [] /\ NoDup recs /\
  (In "Address all critical security and error issues before merging" recs
   <-> exists f, In f fb /\ type f = ERROR) /\
  (In "Review and fix security vulnerabilities" recs
   <-> exists f, In f fb /\ mentions_security f = true) /\
  (In "Add documentation to improve code maintainability" recs
   <-> exists f, In f fb /\ mentions_docstring f = true) /\
  (In "Great work! Code looks good to merge." recs
   <-> recs = ["Great work! Code looks good to merge."]) /\
  (recs = ["Great work! Code looks good to merge."]
   <-> forall f, In f fb ->
         type f <> ERROR /\ mentions_security f = false
         /\ mentions_docstring f = false).
Proof.
  intros recs. subst recs. rewrite recommendations_cases.
  assert (He : existsb is_error fb = true <-> exists f, In f fb /\ type f = ERROR).
  { rewrite existsb_exists. split; intros (f & Hf & H); exists f;
      (split; [exact Hf | now apply is_error_true]). }
  pose proof (existsb_exists mentions_security fb) as Hs.
  pose proof (existsb_exists mentions_docstring fb) as Hd.
  assert (Hnone : (forall f, In f fb ->
                     type f <> ERROR /\ mentions_security f = false
                     /\ mentions_docstring f = false)
                  <-> existsb is_error fb = false
                      /\ existsb mentions_security fb = false
                      /\ existsb mentions_docstring fb = false).
  { split.
    - intros H. repeat split; apply not_true_is_false; intros E.
      + apply He in E. destruct E as (f & Hf & E). now apply (H f Hf).
      + apply Hs in E. destruct E as (f & Hf & E).
        destruct (H f Hf) as (_ & H2 & _). congruence.
      + apply Hd in E. destruct E as (f & Hf & E).
        destruct (H f Hf) as (_ & _ & H3). congruence.
    - intros (E1 & E2 & E3) f Hf. repeat split.
      + intros Ht. assert (existsb is_error fb = true) by (apply He; now exists f).
        congruence.
      + apply not_true_is_false. intros E.
        assert (existsb mentions_security fb = true) by (apply Hs; now exists f).
        congruence.
      + apply not_true_is_false. intros E.
        assert (existsb mentions_docstring fb = true) by (apply Hd; now exists f).
        congruence. }
  rewrite <- He, <- Hs, <- Hd, Hnone.
  destruct (existsb is_error fb), (existsb mentions_security fb),
    (existsb mentions_docstring fb); cbn [app];
    (split; [discriminate|]);
    (split; [repeat constructor; cbn [In]; intuition discriminate|]);
    repeat split; cbn [In]; intros; intuition (try discriminate; try congruence).
Qed.

Lemma in_matched_messages (table : list (string * string))
      (line_content m : string) :
  In m (matched_messages table line_content) -> In m (map snd table).
Proof.
  unfold matched_messages. rewrite !in_map_iff.
  intros (rule & <- & H). apply filter_In in H. exists rule. split; [reflexivity | apply H].
Qed.

Lemma line_findings_message (file_path : string) (n : Z)
      (line_content : string) (f : CodeFeedback) :
  In f (line_findings __init__ file_path n line_content) ->
  In (message f) known_messages.
Proof.
  unfold line_findings. intros H. rewrite !in_app_iff, !in_map_iff in H.
  unfold known_messages. rewrite !in_app_iff.
  destruct H as [(m & <- & Hm) | [(m & <- & Hm) | H]].
  - left. now apply in_matched_messages in Hm.
  - right. left. now apply in_matched_messages in Hm.
  - right. right. destruct (Py.endswith file_path ".py"); [|contradiction].
    apply in_map_iff in H. destruct H as (i & <- & Hi).
    apply in_python_issues in Hi. cbn [map In].
    destruct Hi as [-> | [-> | ->]]; cbn [python_finding message]; tauto.
Qed.

Lemma known_security_word (f : CodeFeedback) :
  In (message f) known_messages ->
  (mentions_security f = true
   <-> message f = "Potential SQL injection - use parameterized queries").
Proof.
  unfold mentions_security. remember (message f) as m eqn:Em. clear Em.
  intros H. vm_compute in H.
  repeat (destruct H as [<- | H]; [vm_compute; split; congruence|]).
  destruct H.
Qed.

Lemma known_docstring_word (f : CodeFeedback) :
  In (message f) known_messages ->
  (mentions_docstring f = true
   <-> message f = "Function missing docstring"
       \/ message f = "Class missing docstring").
Proof.
  unfold mentions_docstring. remember (message f) as m eqn:Em. clear Em.
  intros H. vm_compute in H.
  repeat (destruct H as [<- | H];
          [vm_compute; split; [intros; try discriminate; tauto
                              | intros [E | E]; congruence]|]).
  destruct H.
Qed.

(** X12.  In a report the security recommendation appears exactly when a line
    matched the SQL rule: of all the messages the built-in rules emit, that
    one alone holds the word injection, and none holds the word security.
    The documentation recommendation appears exactly when a function or a
    class was found without a docstring. *)
Theorem report_recommendations (pr_data : PRData) (resp : PRAnalysisResponse) :
  analyze_changes __init__ pr_data = Ret resp ->
  (In "Review and fix security vulnerabilities" (recommendations resp)
   <-> exists f, In f (feedback resp) /\
         message f = "Potential SQL injection - use parameterized queries") /\
  (In "Add documentation to improve code maintainability" (recommendations resp)
   <-> exists f, In f (feedback resp) /\
         (message f = "Function missing docstring"
          \/ message f = "Class missing docstring")).
Proof.
  rewrite analyze_changes_findings. intros E. injection E as <-.
  cbn [feedback recommendations].
  set (fb := diff_findings __init__ (_parse_diff (diff_content pr_data))).
  assert (Hknown : forall f, In f fb -> In (message f) known_messages).
  { intros f Hf. apply in_diff_findings in Hf.
    destruct Hf as (file_path & changes & k & l & _ & _ & _ & Hf).
    now apply line_findings_message in Hf. }
  rewrite recommendations_cases.
  pose proof (existsb_exists mentions_security fb) as Hs.
  pose proof (existsb_exists mentions_docstring fb) as Hd.
  assert (Hs' : existsb mentions_security fb = true
                <-> exists f, In f fb /\
                      message f = "Potential SQL injection - use parameterized queries").
  { rewrite Hs. split; intros (f & Hf & H); exists f; (split; [exact Hf|]);
      now apply (known_security_word f (Hknown f Hf)). }
  assert (Hd' : existsb mentions_docstring fb = true
                <-> exists f, In f fb /\
                      (message f = "Function missing docstring"
                       \/ message f = "Class missing docstring")).
  { rewrite Hd. split; intros (f & Hf & H); exists f; (split; [exact Hf|]);
      now apply (known_docstring_word f (Hknown f Hf)). }
  rewrite <- Hs', <- Hd'.
  destruct (existsb is_error fb), (existsb mentions_security fb),
    (existsb mentions_docstring fb); cbn [app In];
    split; split; intros; intuition (try discriminate; try congruence).
Qed.

Lemma report_recommendations_witness :
  In "Add documentation to improve code maintainability"
     (_generate_recommendations (diff_findings __init__ (_parse_diff foo_diff)))
  <-> exists f, In f (diff_findings __init__ (_parse_diff foo_diff)) /\
        (message f = "Function missing docstring"
         \/ message f = "Class missing docstring").
Proof.
  exact (proj2 (report_recommendations
                  (mk_pr_data [] 0 0 0 foo_diff EmptyString EmptyString)
                  _ (analyze_changes_findings _))).
Defined.

(* ================================================================= *)
(** ** More on the scorer and on the order of findings *)

Lemma spec_score_eq (fb1 fb2 : list CodeFeedback) :
  sum_penalties fb1 == sum_penalties fb2 -> spec_score fb1 = spec_score fb2.
Proof.
  intros H. apply Z.le_antisymm; apply spec_score_antitone; rewrite H; lra.
Qed.

Lemma sum_penalties_perm (fb1 fb2 : list CodeFeedback) :
  Permutation fb1 fb2 -> sum_penalties fb1 == sum_penalties fb2.
Proof.
  induction 1 as [| x l l' _ IH | x y l | l l' l'' _ IH1 _ IH2]; simpl.
  - lra.
  - rewrite IH. lra.
  - lra.
  - now rewrite IH1.
Qed.

(** X13.  For findings with severities on the 1-5 scale the score does not
    depend on their order. *)
Theorem score_ignores_order (fb1 fb2 : list CodeFeedback) :
  Forall severity_in_scale fb1 ->
  Permutation fb1 fb2 -> _calculate_score fb1 = _calculate_score fb2.
Proof.
  intros _ H. rewrite !score_is_spec_score.
  now apply spec_score_eq, sum_penalties_perm.
Qed.

Lemma score_ignores_order_witness :
  _calculate_score [docstring_warning "a.py"; type_hint_suggestion "a.py"]
  = _calculate_score [type_hint_suggestion "a.py"; docstring_warning "a.py"].
Proof.
  apply score_ignores_order.
  - repeat constructor; unfold severity_in_scale; simpl; lia.
  - apply perm_swap.
Defined.

(** X14.  With severities on the 1-5 scale, one more finding of any kind,
    put anywhere in the list, never raises the score. *)
Theorem finding_never_raises_score (fb1 fb2 : list CodeFeedback) (f : CodeFeedback) :
  Forall severity_in_scale (fb1 ++ f :: fb2) ->
  (_calculate_score (fb1 ++ f :: fb2) <= _calculate_score (fb1 ++ fb2))%Z.
Proof.
  intros Hall. rewrite !score_is_spec_score. apply spec_score_antitone.
  rewrite !sum_penalties_app. simpl.
  assert (Hsev : (0 <= severity f)%Z).
  { rewrite Forall_forall in Hall.
    assert (H : severity_in_scale f) by (apply Hall, in_or_app; right; now left).
    unfold severity_in_scale in H. lia. }
  pose proof (penalty_nonneg f Hsev). lra.
Qed.

Lemma finding_never_raises_score_witness :
  (_calculate_score ([docstring_warning "a.py"] ++
                     import_finding "a.py" 2 :: [type_hint_suggestion "a.py"])
   <= _calculate_score ([docstring_warning "a.py"] ++ [type_hint_suggestion "a.py"]))%Z.
Proof.
  apply finding_never_raises_score.
  repeat constructor; unfold severity_in_scale; simpl; lia.
Defined.

Lemma spec_score_zero_iff (fb : list CodeFeedback) :
  spec_score fb = 0%Z <-> 99 < sum_penalties fb.
Proof.
  unfold spec_score.
  set (x := 100 - Qmin (sum_penalties fb) 100).
  pose proof (Qfloor_le x) as Hlo. pose proof (Qlt_floor x) as Hhi.
  assert (Hx : 0 <= x).
  { unfold x. destruct (Q.min_spec (sum_penalties fb) 100) as [[? E] | [? E]];
      rewrite E; lra. }
  assert (Hfl : (0 <= Qfloor x)%Z).
  { change 0%Z with (Qfloor 0). now apply Qfloor_resp_le. }
  split.
  - intros H0. assert (E : Qfloor x = 0%Z) by lia. rewrite E in Hhi.
    unfold x in Hhi.
    destruct (Q.min_spec (sum_penalties fb) 100) as [[? Em] | [? Em]];
      rewrite Em in Hhi; change (inject_Z (0 + 1)) with 1 in Hhi; lra.
  - intros H99.
    assert (Hlt : x < 1).
    { unfold x. destruct (Q.min_spec (sum_penalties fb) 100) as [[? Em] | [? Em]];
        rewrite Em; lra. }
    assert (H1 : (Qfloor x < 1)%Z).
    { apply Z.lt_nge. intros Hge. apply (Qle_not_lt _ _ Hlo).
      apply Qlt_le_trans with 1; [exact Hlt|].
      change 1 with (inject_Z 1). now rewrite <- Zle_Qle. }
    lia.
Qed.

(** X15.  With severities on the 1-5 scale the score is 0 exactly when the
    penalties (the severity times 3 for an error, 2 for a warning, 1 for a
    suggestion, one half for an info) add up to more than 99. *)
Theorem score_zero_iff (fb : list CodeFeedback) :
  Forall severity_in_scale fb ->
  (_calculate_score fb = 0%Z <-> 99 < claimed_total fb).
Proof.
  intros _. rewrite score_is_spec_score, spec_score_zero_iff.
  now rewrite (sum_penalties_is_claimed fb).
Qed.

Lemma score_zero_iff_witness :
  _calculate_score seven_errors = 0%Z /\ 99 < claimed_total seven_errors.
Proof.
  assert (H : Forall severity_in_scale seven_errors)
    by (repeat constructor; unfold severity_in_scale; simpl; lia).
  assert (H99 : 99 < claimed_total seven_errors) by reflexivity.
  split; [exact (proj2 (score_zero_iff seven_errors H) H99) | exact H99].
Defined.

Lemma strongly_sorted_app (l1 l2 : list Z) :
  StronglySorted Z.le l1 -> StronglySorted Z.le l2 ->
  (forall x y, In x l1 -> In y l2 -> (x <= y)%Z) ->
  StronglySorted Z.le (l1 ++ l2).
Proof.
  induction 1 as [|x l1 Hs IH Hx]; intros H2 Hle; [exact H2|].
  simpl. constructor.
  - apply IH; [exact H2|]. intros a b Ha Hb. apply Hle; [now right | exact Hb].
  - apply Forall_app. split; [exact Hx|].
    apply Forall_forall. intros y Hy. apply Hle; [now left | exact Hy].
Qed.

Lemma constant_sorted (n : Z) (l : list Z) :
  (forall x, In x l -> x = n) -> StronglySorted Z.le l.
Proof.
  induction l as [|x l IH]; intros H; constructor.
  - apply IH. intros y Hy. apply H. now right.
  - apply Forall_forall. intros y Hy.
    rewrite (H x (or_introl eq_refl)), (H y (or_intror Hy)). lia.
Qed.

Lemma enumerated_lines_sorted (self : CodeAnalyzer) (file_path : string)
      (changes : list string) (start : Z) :
  let fb := flat_map (fun nl => line_findings self file_path (fst nl) (snd nl))
                     (enumerate start changes) in
  StronglySorted Z.le (map line fb) /\
  (forall f, In f fb -> (start <= line f)%Z).
Proof.
  revert start. induction changes as [|l changes IH]; intros start; cbn zeta.
  - split; [constructor | intros f []].
  - cbn [enumerate flat_map fst snd]. destruct (IH (start + 1)%Z) as [Hs Hge].
    cbn zeta in Hs, Hge. split.
    + rewrite map_app. apply strongly_sorted_app; [|exact Hs|].
      * apply (constant_sorted start). intros x Hx. apply in_map_iff in Hx.
        destruct Hx as (f & <- & Hf). now apply line_findings_on_line in Hf.
      * intros x y Hx Hy. apply in_map_iff in Hx, Hy.
        destruct Hx as (f & <- & Hf), Hy as (g & <- & Hg).
        apply line_findings_on_line in Hf. specialize (Hge g Hg). lia.
    + intros f Hf. apply in_app_or in Hf. destruct Hf as [Hf | Hf].
      * apply line_findings_on_line in Hf. lia.
      * specialize (Hge f Hf). lia.
Qed.

(** X16.  The feedback of a file is in the order of its added lines: the line
    numbers of the findings never decrease, and every finding carries the
    path of the file. *)
Theorem file_feedback_is_sorted (self : CodeAnalyzer) (file_path : string)
        (changes : list string) :
  analyzer_compiles self = true ->
  exists fb,
    _analyze_file_changes self file_path changes = Ret fb /\
    StronglySorted Z.le (map line fb) /\
    Forall (fun f => file f = file_path) fb.
Proof.
  intros Hc. eexists. split; [now apply file_changes_findings|]. split.
  - exact (proj1 (enumerated_lines_sorted self file_path changes 1)).
  - apply Forall_forall. intros f Hf. unfold file_findings in Hf.
    apply in_flat_map in Hf. destruct Hf as (nl & _ & Hf).
    now apply line_findings_file in Hf.
Qed.

Lemma file_feedback_is_sorted_witness :
  exists fb,
    _analyze_file_changes __init__ "a.py" ["import os"; "eval(x)"] = Ret fb /\
    StronglySorted Z.le (map line fb) /\
    Forall (fun f => file f = "a.py") fb.
Proof. apply file_feedback_is_sorted. exact init_compiles. Defined.

(* ================================================================= *)
(** ** More on the rules *)

Lemma ends_lit_seq (c : ascii) (r : Re.regex) (s : string) :
  Re.ends false (Re.Seq (Re.Lit c) r) s <> [] ->
  exists s', s = String c s' /\ Re.ends false r s' <> [].
Proof.
  cbn [Re.ends]. destruct s as [|x s]; cbn [Re.one flat_map]; [congruence|].
  unfold Re.lit_match. destruct (Ascii.eqb c x) eqn:E; cbn [flat_map]; [|congruence].
  apply Ascii.eqb_eq in E. subst x. rewrite app_nil_r. intros H. now exists s.
Qed.

Lemma def_pattern_shape :
  exists r, Re.compile "def\s+\w+\([^)]*\):"
            = Re.Parsed (Re.Seq (Re.Lit "d") (Re.Seq (Re.Lit "e")
                                                (Re.Seq (Re.Lit "f") r))).
Proof. eexists. vm_compute. reflexivity. Qed.

Lemma found_at_start_def (line_content : string) :
  found_at_start "def\s+\w+\([^)]*\):" line_content = true ->
  Py.startswith line_content "def" = true.
Proof.
  unfold found_at_start, Re.match_, Re.with_compiled.
  destruct def_pattern_shape as (r & ->). unfold Re.matches_here.
  intros H.
  assert (Hne : Re.ends false (Re.Seq (Re.Lit "d") (Re.Seq (Re.Lit "e")
                 (Re.Seq (Re.Lit "f") r))) line_content <> []).
  { intros E. rewrite E in H. discriminate. }
  apply ends_lit_seq in Hne. destruct Hne as (s1 & -> & Hne).
  apply ends_lit_seq in Hne. destruct Hne as (s2 & -> & Hne).
  apply ends_lit_seq in Hne. destruct Hne as (s3 & -> & _).
  apply (startswith_app "def" s3).
Qed.

(** X17.  The type-hint suggestion is only made for a line that begins with
    [def] at its very first character and holds no [->]: the pattern is
    matched at the start, unlike the docstring pattern, which is searched.
    So a [def] indented by a space, as every method is, never gets it. *)
Theorem type_hint_needs_def_at_start (file_path : string) (line_num : Z)
        (line_content : string) (f : CodeFeedback) :
  In f (line_findings __init__ file_path line_num line_content) ->
  type f = SUGGESTION ->
  Py.endswith file_path ".py" = true /\
  Py.startswith line_content "def" = true /\
  Py.contains line_content "->" = false /\
  Py.startswith line_content " " = false.
Proof.
  unfold line_findings. rewrite !in_app_iff, !in_map_iff.
  intros [(m & <- & _) | [(m & <- & _) | H]] Htype; try discriminate.
  destruct (Py.endswith file_path ".py"); [|contradiction].
  apply in_map_iff in H. destruct H as (i & <- & Hi).
  cbn [python_finding type] in Htype.
  unfold python_issues in Hi.
  destruct (found_at_start "def\s+\w+\([^)]*\):" line_content) eqn:Hdef.
  - apply found_at_start_def in Hdef.
    destruct (Py.contains line_content "->") eqn:Harrow.
    + cbn [andb negb app] in Hi. apply in_app_or in Hi.
      destruct Hi as [Hi | Hi];
        [destruct (88 <? String.length (Py.strip line_content))%nat
        |destruct (Py.startswith (Py.strip line_content) "import "
                   && negb (Py.contains line_content "#"))];
        cbn [In] in Hi; try contradiction;
        destruct Hi as [<- | []]; discriminate.
    + split; [reflexivity|]. split; [exact Hdef|]. split; [reflexivity|].
      clear Hi Harrow. destruct line_content as [|c s]; [discriminate|].
      unfold Py.startswith in *. cbn [String.prefix] in *.
      destruct (ascii_dec "d" c) as [<- | _]; [reflexivity | discriminate].
  - cbn [andb app] in Hi. apply in_app_or in Hi.
    destruct Hi as [Hi | Hi];
      [destruct (88 <? String.length (Py.strip line_content))%nat
      |destruct (Py.startswith (Py.strip line_content) "import "
                 && negb (Py.contains line_content "#"))];
      cbn [In] in Hi; try contradiction;
      destruct Hi as [<- | []]; discriminate.
Qed.

Lemma type_hint_needs_def_at_start_witness :
  Py.endswith "mod.py" ".py" = true /\
  Py.startswith "def foo(x):" "def" = true /\
  Py.contains "def foo(x):" "->" = false /\
  Py.startswith "def foo(x):" " " = false.
Proof.
  apply (type_hint_needs_def_at_start "mod.py" 1 "def foo(x):"
                                      (type_hint_suggestion "mod.py")).
  - vm_compute. right. left. reflexivity.
  - reflexivity.
Defined.

(* ================================================================= *)
(** ** Fetching the pull request, and the service boundary *)

Lemma split_no_sep (sep : ascii) (s : string) :
  PyStr.has_char sep s = false -> Py.split sep s = [s].
Proof.
  induction s as [|x s IH]; [reflexivity|].
  cbn [PyStr.has_char Py.split]. intros H. apply orb_false_iff in H.
  destruct H as [Hx Hs]. rewrite Hx, (IH Hs). reflexivity.
Qed.

Lemma split_app_sep (sep : ascii) (a b : string) :
  PyStr.has_char sep a = false ->
  Py.split sep (a ++ String sep b) = a :: Py.split sep b.
Proof.
  induction a as [|x a IH]; cbn [PyStr.has_char Py.split String.append].
  - intros _. now rewrite Ascii.eqb_refl.
  - intros H. apply orb_false_iff in H. destruct H as [Hx Ha].
    rewrite Hx, (IH Ha). reflexivity.
Qed.

Lemma rstrip_char_none (c : ascii) (t : string) :
  PyStr.has_char c t = false -> PyStr.rstrip_char c t = t.
Proof.
  induction t as [|x t IH]; [reflexivity|].
  cbn [PyStr.has_char PyStr.rstrip_char]. intros H. apply orb_false_iff in H.
  destruct H as [Hx Ht]. rewrite (IH Ht), Hx. now destruct t.
Qed.

Lemma rstrip_char_app (c : ascii) (s t : string) :
  PyStr.rstrip_char c t <> EmptyString ->
  PyStr.rstrip_char c (s ++ t) = (s ++ PyStr.rstrip_char c t)%string.
Proof.
  intros Hne. induction s as [|x s IH]; [reflexivity|].
  cbn [String.append PyStr.rstrip_char]. rewrite IH.
  destruct (s ++ PyStr.rstrip_char c t)%string eqn:E; [|reflexivity].
  destruct s; [|discriminate]. now cbn in E.
Qed.

Lemma has_char_app (c : ascii) (s t : string) :
  PyStr.has_char c (s ++ t) = PyStr.has_char c s || PyStr.has_char c t.
Proof.
  induction s as [|x s IH]; [reflexivity|].
  cbn [String.append PyStr.has_char]. now rewrite IH, orb_assoc.
Qed.

Lemma prefix_nil (s : string) : String.prefix EmptyString s = true.
Proof. now destruct s. Qed.

Lemma replace_none (old new s : string) :
  Py.contains s old = false -> PyStr.replace_from old new 0 s = s.
Proof.
  induction s as [|x s IH]; [reflexivity|].
  cbn [Py.contains PyStr.replace_from].
  destruct (String.prefix old (String x s)); [discriminate|].
  intros H. now rewrite (IH H).
Qed.

Lemma replace_skips_dotless (t a : string) :
  PyStr.has_char "." a = false ->
  PyStr.replace_from ".git" EmptyString 0 (a ++ t)
  = (a ++ PyStr.replace_from ".git" EmptyString 0 t)%string.
Proof.
  induction a as [|x a IH]; [reflexivity|].
  cbn [PyStr.has_char String.append PyStr.replace_from String.prefix].
  intros H. apply orb_false_iff in H. destruct H as [Hx Ha].
  destruct (ascii_dec "." x) as [<- | _]; [discriminate|].
  now rewrite (IH Ha).
Qed.

Lemma replace_at_dot_git (b : string) :
  PyStr.replace_from ".git" EmptyString 0 (".git" ++ b)
  = PyStr.replace_from ".git" EmptyString 0 b.
Proof.
  cbn [String.append PyStr.replace_from String.prefix String.length Nat.sub].
  destruct (ascii_dec "." "."); [|contradiction].
  destruct (ascii_dec "g" "g"); [|contradiction].
  destruct (ascii_dec "i" "i"); [|contradiction].
  destruct (ascii_dec "t" "t"); [|contradiction].
  now rewrite prefix_nil.
Qed.

Lemma replace_dot_git (a b : string) :
  PyStr.has_char "." a = false ->
  PyStr.replace ".git" EmptyString (a ++ ".git" ++ b)
  = (a ++ PyStr.replace ".git" EmptyString b)%string.
Proof.
  intros Ha. unfold PyStr.replace.
  now rewrite (replace_skips_dotless _ _ Ha), replace_at_dot_git.
Qed.

Lemma strip_path (owner tail : string) :
  component owner = true ->
  PyStr.has_char "/" tail = false -> tail <> EmptyString ->
  PyStr.strip_char "/" ("/" ++ owner ++ "/" ++ tail)
  = (owner ++ "/" ++ tail)%string.
Proof.
  intros Ho Ht Hne. unfold component in Ho. apply andb_true_iff in Ho.
  destruct Ho as [Hone Hos]. apply negb_true_iff in Hos.
  destruct owner as [|x owner]; [discriminate|].
  cbn [PyStr.has_char] in Hos. apply orb_false_iff in Hos. destruct Hos as [Hx _].
  unfold PyStr.strip_char.
  cbn [String.append PyStr.lstrip_char]. rewrite Ascii.eqb_refl.
  cbn [PyStr.lstrip_char]. rewrite Hx.
  replace (String x (owner ++ String "/" tail))
    with ((String x owner ++ "/") ++ tail)%string.
  2:{ cbn [String.append]. f_equal. induction owner as [|y o IHo]; [reflexivity|].
      cbn [String.append]. now rewrite IHo. }
  rewrite rstrip_char_app; rewrite (rstrip_char_none _ _ Ht); [reflexivity | exact Hne].
Qed.

(** X18.  For a path [/owner/name] the address asked of the GitHub API is
    [https://api.github.com/repos/owner/name/pulls/N], [N] in decimal.  A
    [.git] is removed from the name wherever it stands, not only at its end:
    [/owner/a.gitb] asks for the repository [ab]. *)
Theorem github_api_url_of_path (urlparse : string -> ParseResult)
        (repository_url : string) (pr_number : Z) (owner a b : string) :
  component owner = true ->
  PyStr.has_char "/" a = false -> PyStr.has_char "/" b = false ->
  (path (urlparse repository_url) = ("/" ++ owner ++ "/" ++ a)%string ->
   a <> EmptyString -> Py.contains a ".git" = false ->
   github_api_url urlparse repository_url pr_number
   = Fetched ("https://api.github.com/repos/" ++ owner ++ "/" ++ a
              ++ "/pulls/" ++ PyStr.str_int pr_number)%string) /\
  (path (urlparse repository_url) = ("/" ++ owner ++ "/" ++ a ++ ".git" ++ b)%string ->
   PyStr.has_char "." a = false -> Py.contains b ".git" = false ->
   github_api_url urlparse repository_url pr_number
   = Fetched ("https://api.github.com/repos/" ++ owner ++ "/" ++ (a ++ b)
              ++ "/pulls/" ++ PyStr.str_int pr_number)%string).
Proof.
  intros Ho Ha Hb.
  assert (Hos : PyStr.has_char "/" owner = false).
  { unfold component in Ho. apply andb_true_iff in Ho. destruct Ho as [_ Ho].
    now apply negb_true_iff in Ho. }
  assert (Hparts : forall tail, PyStr.has_char "/" tail = false ->
                     tail <> EmptyString ->
                     Py.split "/" (PyStr.strip_char "/" ("/" ++ owner ++ "/" ++ tail))
                     = [owner; tail]).
  { intros tail Ht Hne. rewrite (strip_path owner tail Ho Ht Hne).
    change (owner ++ "/" ++ tail)%string with (owner ++ String "/" tail)%string.
    now rewrite (split_app_sep "/" owner tail Hos), (split_no_sep "/" tail Ht). }
  split.
  - intros Hpath Hne Hgit. unfold github_api_url. rewrite Hpath.
    rewrite (Hparts a Ha Hne). cbn [nth_error].
    unfold PyStr.replace. now rewrite (replace_none _ _ _ Hgit).
  - intros Hpath Hdot Hgit. unfold github_api_url. rewrite Hpath.
    rewrite (Hparts (a ++ ".git" ++ b)%string).
    + cbn [nth_error]. rewrite (replace_dot_git a b Hdot).
      unfold PyStr.replace. now rewrite (replace_none _ _ _ Hgit).
    + rewrite !has_char_app, Ha, Hb. reflexivity.
    + destruct a; discriminate.
Qed.

Lemma github_api_url_of_path_witness :
  github_api_url (fun u => mk_parsed "github.com" (Py.drop 18 u))
                 "https://github.com/octo/my.github.io" 7
  = Fetched "https://api.github.com/repos/octo/myhub.io/pulls/7".
Proof.
  refine (proj2 (github_api_url_of_path
                   (fun u => mk_parsed "github.com" (Py.drop 18 u))
                   "https://github.com/octo/my.github.io" 7 "octo" "my" "hub.io"
                   _ _ _) _ _ _); reflexivity.
Defined.

(** X19.  When the path of the address has a single component, as in
    [https://github.com/owner], the fetch raises IndexError before any
    request is made. *)
Theorem short_path_raises_index_error (urlparse : string -> ParseResult)
        (github_requests : string -> string -> fetched PRData)
        (repository_url : string) (pr_number : Z) :
  Py.contains (netloc (urlparse repository_url)) "github.com" = true ->
  PyStr.has_char "/" (PyStr.strip_char "/" (path (urlparse repository_url))) = false ->
  fetch_pr_data urlparse github_requests repository_url pr_number
  = Failed (IndexError "list index out of range").
Proof.
  intros Hhost Hshort. unfold fetch_pr_data, _fetch_github_pr, github_api_url.
  rewrite Hhost, (split_no_sep _ _ Hshort). reflexivity.
Qed.

Lemma short_path_raises_index_error_witness :
  fetch_pr_data (fun u => mk_parsed "github.com" (Py.drop 18 u))
                (fun _ _ => Failed (Exception_ "unreachable"))
                "https://github.com/octo/" 1
  = Failed (IndexError "list index out of range").
Proof. apply short_path_raises_index_error; reflexivity. Defined.

Lemma report_score_bounded (pr_data : PRData) :
  exists body,
    analyze_changes __init__ pr_data = Ret body /\ (0 <= score body <= 100)%Z.
Proof.
  eexists. split; [apply analyze_changes_findings|]. cbn [score].
  rewrite score_is_spec_score. split; [apply spec_score_lower|].
  apply spec_score_upper, sum_penalties_nonneg, shapes_nonneg, diff_findings_shape.
Qed.

(** X20.  The service answers 200 exactly when the fetch succeeds, and then
    with the report of the fetched data, whose score lies between 0 and 100;
    when the fetch raises it answers 400 with the text of the exception.  No
    request fails in the analysis. *)
Theorem endpoint_fails_only_in_fetch (urlparse : string -> ParseResult)
        (github_requests : string -> string -> fetched PRData)
        (re_error_text repository_url : string) (pr_number : Z) :
  (forall pr_data,
      fetch_pr_data urlparse github_requests repository_url pr_number
      = Fetched pr_data ->
      exists body,
        analyze_pull_request urlparse github_requests re_error_text
                             repository_url pr_number = Ret (Http200 body) /\
        analyze_changes __init__ pr_data = Ret body /\
        (0 <= score body <= 100)%Z) /\
  (forall e,
      fetch_pr_data urlparse github_requests repository_url pr_number
      = Failed e ->
      analyze_pull_request urlparse github_requests re_error_text
                           repository_url pr_number = Ret (Http400 (exn_text e))).
Proof.
  split.
  - intros pr_data Hfetch. destruct (report_score_bounded pr_data) as (body & Hrun & Hb).
    exists body. unfold analyze_pull_request. rewrite Hfetch, Hrun. now repeat split.
  - intros e Hfetch. unfold analyze_pull_request. now rewrite Hfetch.
Qed.

Lemma endpoint_fails_only_in_fetch_witness :
  exists body,
    analyze_pull_request (fun u => mk_parsed "github.com" "/octo/repo")
                         (fun _ _ => Fetched (mk_pr_data ["mod.py"] 1 0 1 foo_diff
                                                         "feature" "main"))
                         "bad pattern" "https://github.com/octo/repo" 3
    = Ret (Http200 body) /\
    analyze_changes __init__ (mk_pr_data ["mod.py"] 1 0 1 foo_diff "feature" "main")
    = Ret body /\
    (0 <= score body <= 100)%Z.
Proof.
  apply (proj1 (endpoint_fails_only_in_fetch
                  (fun u => mk_parsed "github.com" "/octo/repo")
                  (fun _ _ => Fetched (mk_pr_data ["mod.py"] 1 0 1 foo_diff
                                                  "feature" "main"))
                  "bad pattern" "https://github.com/octo/repo" 3)).
  reflexivity.
Defined.

(** X21.  The platform is chosen by looking for [github.com] in the netloc
    of the address, that is in user information, host and port together,
    and not in the host name alone.  When the netloc does not hold
    [github.com] the service makes no request and answers 400, with the text
    [GitLab integration coming soon] when the netloc holds [gitlab.com],
    [Bitbucket integration coming soon] when it holds [bitbucket.org], and
    [Unsupported Git platform] otherwise.  A netloc that holds [github.com]
    anywhere, as [github.com@gitlab.com] does, is handed to the GitHub
    fetch whatever else it holds. *)
Theorem other_hosts_get_400 (urlparse : string -> ParseResult)
        (github_requests : string -> string -> fetched PRData)
        (re_error_text repository_url : string) (pr_number : Z) :
  (Py.contains (netloc (urlparse repository_url)) "github.com" = false ->
   analyze_pull_request urlparse github_requests re_error_text
                        repository_url pr_number
   = Ret (Http400
            (if Py.contains (netloc (urlparse repository_url)) "gitlab.com"
             then "GitLab integration coming soon"
             else if Py.contains (netloc (urlparse repository_url)) "bitbucket.org"
             then "Bitbucket integration coming soon"
             else "Unsupported Git platform"))) /\
  (Py.contains (netloc (urlparse repository_url)) "github.com" = true ->
   fetch_pr_data urlparse github_requests repository_url pr_number
   = _fetch_github_pr urlparse github_requests repository_url pr_number).
Proof.
  split.
  - intros Hhost. unfold analyze_pull_request, fetch_pr_data. rewrite Hhost.
    destruct (Py.contains (netloc (urlparse repository_url)) "gitlab.com");
      [reflexivity|].
    destruct (Py.contains (netloc (urlparse repository_url)) "bitbucket.org");
      reflexivity.
  - intros Hhost. unfold fetch_pr_data. now rewrite Hhost.
Qed.

Lemma other_hosts_get_400_witness :
  analyze_pull_request (fun u => mk_parsed "git.sr.ht" "/~octo/repo")
                       (fun _ _ => Failed (Exception_ "unreachable"))
                       "bad pattern" "https://git.sr.ht/~octo/repo" 3
  = Ret (Http400 "Unsupported Git platform") /\
  fetch_pr_data (fun u => mk_parsed "github.com@gitlab.com" "/octo/repo")
                (fun _ _ => Failed (Exception_ "unreachable"))
                "https://github.com@gitlab.com/octo/repo" 3
  = _fetch_github_pr (fun u => mk_parsed "github.com@gitlab.com" "/octo/repo")
                     (fun _ _ => Failed (Exception_ "unreachable"))
                     "https://github.com@gitlab.com/octo/repo" 3.
Proof.
  split.
  - apply (proj1 (other_hosts_get_400
                    (fun u => mk_parsed "git.sr.ht" "/~octo/repo") _ _ _ _)).
    reflexivity.
  - apply (proj2 (other_hosts_get_400
                    (fun u => mk_parsed "github.com@gitlab.com" "/octo/repo")
                    _ EmptyString _ _)).
    reflexivity.
Defined.
